(** * A point-of-sale core: orders, the SQLite store and settlement

    Shallow embedding of [pos_system.py]: the [Product], [OrderItem] and
    [Order] dataclasses, the [Database] class (four SQLite tables reached
    through one connection per method call) and the [POSSystem] settlement
    engine, followed by the properties of the order lifecycle.

    Conventions of the embedding.
    - Python [int] is [Z]; Python [str] is [string]; [Optional[str]] is
      [option string]; SQL [NULL] is [None].
    - Python [float] and SQLite [REAL] are read as exact rationals ([Q]);
      rounding of binary floating point is outside the model.  Equality of
      amounts is [Qeq] (written [==]), the value equality of the numbers.
    - An f-string result is kept as a constructor carrying the values the
      text is built from.
    - A table is the list of its rows in rowid order. *)

From Stdlib Require Import ZArith QArith Qround List String Ascii Bool Lia Lqa.
Import ListNotations.

Local Open Scope string_scope.
Local Open Scope list_scope.
Local Open Scope Z_scope.

(** ** Python and SQL primitives *)

Module Py.

(** Truth value of an [Optional[str]]: [None] and the empty string are
    false. *)
Definition truthy (s : option string) : bool :=
  match s with
  | Some s => negb (s =? EmptyString)%string
  | None => false
  end.

(** [a < b] on numbers. *)
Definition ltb (a b : Q) : bool := negb (Qle_bool b a).

(** [sum(xs)]: a left fold from the integer [0]. *)
Definition sum (xs : list Q) : Q := fold_left Qplus xs 0%Q.

Definition sumZ (xs : list Z) : Z := fold_left Z.add xs 0.

(** What [datetime.now()] returns. *)
Record datetime := {
  year : nat; month : nat; day : nat;
  hour : nat; minute : nat; second : nat
}.

Definition digit (n : nat) : ascii := ascii_of_nat (48 + n mod 10).

Definition pad2 (n : nat) : string :=
  String (digit (n / 10)) (String (digit n) EmptyString).

Definition pad4 (n : nat) : string :=
  String (digit (n / 1000)) (String (digit (n / 100)) (pad2 n)).

(** [strftime('%Y%m%d%H%M%S')] *)
Definition strftime_compact (t : datetime) : string :=
  (pad4 (year t) ++ pad2 (month t) ++ pad2 (day t)
     ++ pad2 (hour t) ++ pad2 (minute t) ++ pad2 (second t))%string.

(** [strftime('%Y-%m-%d %H:%M:%S')] *)
Definition strftime_iso (t : datetime) : string :=
  (pad4 (year t) ++ "-" ++ pad2 (month t) ++ "-" ++ pad2 (day t) ++ " "
     ++ pad2 (hour t) ++ ":" ++ pad2 (minute t) ++ ":" ++ pad2 (second t))%string.

(** [strftime('%Y-%m-%d')] *)
Definition strftime_date (t : datetime) : string :=
  (pad4 (year t) ++ "-" ++ pad2 (month t) ++ "-" ++ pad2 (day t))%string.

End Py.

Module Sql.

(** [CAST(x AS INTEGER)] on a REAL: the fractional part is dropped, so the
    value moves toward zero. *)
Definition cast_integer (x : Q) : Z := Z.quot (Qnum x) (Zpos (Qden x)).

(** [DATE(ts)] for a timestamp text of the shape [YYYY-MM-DD HH:MM:SS],
    the only shape the program stores: the calendar-date part. *)
Definition date (ts : string) : string := substring 0 10 ts.

(** Case folding of LIKE: the 26 ASCII upper-case letters only. *)
Definition lower (c : ascii) : ascii :=
  let n := nat_of_ascii c in
  if ((65 <=? n) && (n <=? 90))%nat then ascii_of_nat (n + 32) else c.

Definition ci_eqb (c d : ascii) : bool := Ascii.eqb (lower c) (lower d).

Definition percent : ascii := "%"%char.
Definition underscore : ascii := "_"%char.

(** [s LIKE pat] without ESCAPE: [%] stands for any run of characters,
    [_] for exactly one, any other character for itself up to ASCII
    case. *)
Fixpoint like (pat s : string) {struct pat} : bool :=
  match pat with
  | EmptyString => match s with EmptyString => true | _ => false end
  | String p pat' =>
      if Ascii.eqb p percent then
        (fix skip (s : string) : bool :=
           like pat' s
           || match s with
              | EmptyString => false
              | String _ s' => skip s'
              end) s
      else
        match s with
        | EmptyString => false
        | String c s' =>
            (Ascii.eqb p underscore || ci_eqb p c) && like pat' s'
        end
  end.

(** [col LIKE ?] on a nullable column: NULL is never a match. *)
Definition like_null (pat : string) (col : option string) : bool :=
  match col with
  | Some s => like pat s
  | None => false
  end.

End Sql.

(** ** Dataclasses *)

Record Product := {
  id : Z;
  name : string;
  price : Q;
  category : option string;
  barcode : option string;
  stock : Z;
  min_stock : Z;
  active : bool
}.

Record OrderItem := {
  product_id : Z;
  product_name : string;
  unit_price : Q;
  quantity : Z;
  discount : Q
}.

(** [OrderItem.subtotal] *)
Definition subtotal (item : OrderItem) : Q :=
  (unit_price item * inject_Z (quantity item) - discount item)%Q.

Record Order := {
  order_id : string;
  items : list OrderItem;
  member_id : option string;
  payment_method : string;
  payment_status : string;
  created_at : string
}.

(** [Order(order_id, member_id=member_id)] with the default fields and
    [__post_init__]: an empty identifier is replaced by one made from the
    clock. *)
Definition Order_new (now : Py.datetime) (oid : string)
    (member : option string) : Order :=
  {| order_id :=
       if (oid =? EmptyString)%string then ("ORD" ++ Py.strftime_compact now)%string
       else oid;
     items := [];
     member_id := member;
     payment_method := "Cash";
     payment_status := "Pending";
     created_at := Py.strftime_iso now |}.

(** [Order.total] *)
Definition total (o : Order) : Q := Py.sum (map subtotal (items o)).

(** [Order.item_count] *)
Definition item_count (o : Order) : Z := Py.sumZ (map quantity (items o)).

Definition set_items (o : Order) (its : list OrderItem) : Order :=
  {| order_id := order_id o; items := its; member_id := member_id o;
     payment_method := payment_method o; payment_status := payment_status o;
     created_at := created_at o |}.

Definition add_quantity (item : OrderItem) (q : Z) : OrderItem :=
  {| product_id := product_id item; product_name := product_name item;
     unit_price := unit_price item; quantity := quantity item + q;
     discount := discount item |}.

(** The [for] loop of [Order.add_item]: the first line of the product gets
    [quantity += q] and the method returns; [None] when the loop ends
    without a hit. *)
Fixpoint add_item_merge (its : list OrderItem) (pid q : Z)
    : option (list OrderItem) :=
  match its with
  | [] => None
  | item :: rest =>
      if product_id item =? pid then Some (add_quantity item q :: rest)
      else option_map (cons item) (add_item_merge rest pid q)
  end.

(** [Order.add_item] *)
Definition add_item (o : Order) (pid : Z) (pname : string) (uprice : Q)
    (q : Z) : Order :=
  match add_item_merge (items o) pid q with
  | Some its => set_items o its
  | None =>
      set_items o
        (items o ++ [{| product_id := pid; product_name := pname;
                        unit_price := uprice; quantity := q;
                        discount := 0%Q |}])
  end.

(** [Order.remove_item] *)
Definition remove_item (o : Order) (pid : Z) : Order :=
  set_items o (filter (fun item => negb (product_id item =? pid)) (items o)).

(** ** The store

    The SQLite file behind [Database]: four tables and the write lock.
    Every method opens its own connection.  SQLite allows one writer: while
    a connection has an uncommitted INSERT or UPDATE, a write through any
    other connection waits for the busy timeout and then raises
    [OperationalError: database is locked].  [write_locked] is that state of
    the file. *)

Record OrderRow := {
  o_order_id : string;
  o_member_id : option string;
  o_payment_method : string;
  o_payment_status : string;
  total_amount : Q;
  o_created_at : string
}.

Record OrderItemRow := {
  oi_id : Z;
  oi_order_id : string;
  oi_product_id : Z;
  oi_product_name : string;
  oi_unit_price : Q;
  oi_quantity : Z;
  oi_discount : Q
}.

Record Member := {
  m_member_id : string;
  m_name : string;
  phone : string;
  points : Z;
  total_spent : Q
}.

Record Database := {
  products : list Product;
  orders : list OrderRow;
  order_items : list OrderItemRow;
  members : list Member;
  write_locked : bool
}.

Definition coca_cola : Product :=
  {| id := 1; name := "Coca Cola 330ml"; price := 3%Q;
     category := Some "Drinks"; barcode := Some "6901234567890";
     stock := 100; min_stock := 10; active := true |}.

Definition sample_products : list Product :=
  [ coca_cola;
    {| id := 2; name := "Noodles Beef Flavor"; price := (9 # 2)%Q;
       category := Some "Food"; barcode := Some "6923456789012";
       stock := 50; min_stock := 20; active := true |};
    {| id := 3; name := "Tissue Paper 120pcs"; price := (64 # 5)%Q;
       category := Some "Daily"; barcode := Some "6934567890123";
       stock := 30; min_stock := 5; active := true |};
    {| id := 4; name := "Shampoo 400ml"; price := (459 # 10)%Q;
       category := Some "Care"; barcode := Some "6945678901234";
       stock := 20; min_stock := 5; active := true |};
    {| id := 5; name := "Oreo Cookies"; price := (17 # 2)%Q;
       category := Some "Snack"; barcode := Some "6956789012345";
       stock := 40; min_stock := 10; active := true |} ].

Definition sample_members : list Member :=
  [ {| m_member_id := "M001"; m_name := "John Doe"; phone := "13800138000";
       points := 500; total_spent := 8500%Q |};
    {| m_member_id := "M002"; m_name := "Jane Smith"; phone := "13900139000";
       points := 200; total_spent := 1800%Q |} ].

(** [Database()] on a fresh file: [init_db] creates the empty tables and
    [init_sample_data] fills products (rowids 1 to 5) and members. *)
Definition init_db : Database :=
  {| products := sample_products; orders := []; order_items := [];
     members := sample_members; write_locked := false |}.

(** [Database.get_product]: [WHERE id = ? AND active = 1], first row. *)
Definition get_product (db : Database) (pid : Z) : option Product :=
  find (fun p => (id p =? pid) && active p) (products db).

(** [Database.get_product_by_barcode] *)
Definition get_product_by_barcode (db : Database) (code : string)
    : option Product :=
  find (fun p =>
          match barcode p with
          | Some b => (b =? code)%string
          | None => false
          end && active p)
       (products db).

(** [Database.search_products] *)
Definition search_products (db : Database) (keyword : string)
    : list Product :=
  if negb (keyword =? EmptyString)%string then
    let pat := ("%" ++ keyword ++ "%")%string in
    filter (fun p =>
              (Sql.like pat (name p) || Sql.like_null pat (barcode p))
              && active p)
           (products db)
  else filter active (products db).

Definition set_stock (p : Product) (s : Z) : Product :=
  {| id := id p; name := name p; price := price p; category := category p;
     barcode := barcode p; stock := s; min_stock := min_stock p;
     active := active p |}.

Definition set_products (db : Database) (ps : list Product) : Database :=
  {| products := ps; orders := orders db; order_items := order_items db;
     members := members db; write_locked := write_locked db |}.

Definition set_write_locked (db : Database) (b : bool) : Database :=
  {| products := products db; orders := orders db;
     order_items := order_items db; members := members db;
     write_locked := b |}.

(** The WHERE clause of the UPDATE in [update_stock]. *)
Definition stock_covers (pid q : Z) (p : Product) : bool :=
  (id p =? pid) && (q <=? stock p).

(** [Database.update_stock]: one UPDATE statement on a connection of its
    own, committed at once; [rowcount > 0] is the result.  When the file is
    write-locked the statement raises and the bare [except] returns
    [False]. *)
Definition update_stock (db : Database) (pid q : Z) : bool * Database :=
  if write_locked db then (false, db)
  else
    (existsb (stock_covers pid q) (products db),
     set_products db
       (map (fun p => if stock_covers pid q p then set_stock p (stock p - q)
                      else p)
            (products db))).

Definition order_row (order : Order) : OrderRow :=
  {| o_order_id := order_id order; o_member_id := member_id order;
     o_payment_method := payment_method order;
     o_payment_status := payment_status order;
     total_amount := total order; o_created_at := created_at order |}.

(** The rowid an AUTOINCREMENT key gives the next row of [order_items]. *)
Definition next_rowid (rows : list OrderItemRow) : Z :=
  1 + fold_left Z.max (map oi_id rows) 0.

Definition order_item_row (rows : list OrderItemRow) (oid : string)
    (item : OrderItem) : OrderItemRow :=
  {| oi_id := next_rowid rows; oi_order_id := oid;
     oi_product_id := product_id item; oi_product_name := product_name item;
     oi_unit_price := unit_price item; oi_quantity := quantity item;
     oi_discount := discount item |}.

(** The body of [for item in order.items] in [save_order].  The first
    component is the [order_items] table as the open transaction of
    [save_order] sees it, the second the file as every other connection
    sees it; the result of [update_stock] is dropped. *)
Definition save_item (oid : string) (st : list OrderItemRow * Database)
    (item : OrderItem) : list OrderItemRow * Database :=
  (fst st ++ [order_item_row (fst st) oid item],
   snd (update_stock (snd st) (product_id item) (quantity item))).

(** The UPDATE of [members] in [save_order], on one row. *)
Definition accrue (mid : string) (amount : Q) (m : Member) : Member :=
  if (m_member_id m =? mid)%string then
    {| m_member_id := m_member_id m; m_name := m_name m; phone := phone m;
       points := points m + Sql.cast_integer (amount * 10);
       total_spent := (total_spent m + amount)%Q |}
  else m.

(** [Database.save_order].  The INSERT into [orders] raises on a locked
    file and on a duplicate primary key; the [except] clause returns
    [False] and nothing was written.  Otherwise the connection holds the
    write lock from that INSERT until [conn.commit()], which publishes the
    header, the item rows and the member update together. *)
Definition save_order (db : Database) (order : Order) : bool * Database :=
  if write_locked db then (false, db)
  else if existsb (fun r => (o_order_id r =? order_id order)%string)
                  (orders db)
  then (false, db)
  else
    let st := fold_left (save_item (order_id order)) (items order)
                (order_items db, set_write_locked db true) in
    (true,
     {| products := products (snd st);
        orders := orders db ++ [order_row order];
        order_items := fst st;
        members :=
          match member_id order with
          | Some mid =>
              if Py.truthy (member_id order)
              then map (accrue mid (total order)) (members db)
              else members db
          | None => members db
          end;
        write_locked := false |}).

Record DailySales := {
  order_count : Z;
  total_sales : Q;
  avg_order : Q
}.

(** [if not date: date = datetime.now().strftime("%Y-%m-%d")] *)
Definition report_date (now : Py.datetime) (date : option string)
    : string :=
  match date with
  | Some d => if Py.truthy date then d else Py.strftime_date now
  | None => Py.strftime_date now
  end.

(** [Database.get_daily_sales]: COUNT, SUM and AVG over the orders of one
    calendar date; a count of zero is falsy and gives the literal dict. *)
Definition get_daily_sales (now : Py.datetime) (db : Database)
    (date : option string) : DailySales :=
  let d := report_date now date in
  let rows := filter (fun r => (Sql.date (o_created_at r) =? d)%string)
                     (orders db) in
  let n := Z.of_nat (List.length rows) in
  if negb (n =? 0) then
    {| order_count := n;
       total_sales := Py.sum (map total_amount rows);
       avg_order := (Py.sum (map total_amount rows) / inject_Z n)%Q |}
  else {| order_count := 0; total_sales := 0%Q; avg_order := 0%Q |}.

(** [Database.get_member] *)
Definition get_member (db : Database) (mid : string) : option Member :=
  find (fun m => (m_member_id m =? mid)%string) (members db).

(** ** The settlement engine *)

Record POSSystem := {
  db : Database;
  current_order : option Order
}.

Record ReceiptLine := {
  r_name : string;
  r_quantity : Z;
  r_unit_price : Q;
  r_subtotal : Q
}.

(** The texts the engine returns, each with the values it prints. *)
Inductive Message :=
| NoActiveOrder
| ProductNotFound (pid : Z)
| InsufficientStock (available : Z)
| Added (pname : string) (q : Z)
| BarcodeNotFound (code : string)
| NoOrderToProcess
| InsufficientAmount (need : Q)
| FailedToSaveOrder
| Receipt (oid created : string) (lines : list ReceiptLine) (tot : Q)
    (method : string)
| EmptyText.

(** [POSSystem.start_order] *)
Definition start_order (now : Py.datetime) (pos : POSSystem)
    (member : option string) : POSSystem :=
  {| db := db pos; current_order := Some (Order_new now EmptyString member) |}.

(** [POSSystem.scan_product] *)
Definition scan_product (pos : POSSystem) (pid q : Z)
    : POSSystem * (bool * Message) :=
  match current_order pos with
  | None => (pos, (false, NoActiveOrder))
  | Some o =>
      match get_product (db pos) pid with
      | None => (pos, (false, ProductNotFound pid))
      | Some product =>
          if stock product <? q then
            (pos, (false, InsufficientStock (stock product)))
          else
            ({| db := db pos;
                current_order :=
                  Some (add_item o (id product) (name product)
                          (price product) q) |},
             (true, Added (name product) q))
      end
  end.

(** [POSSystem.scan_barcode] *)
Definition scan_barcode (pos : POSSystem) (code : string) (q : Z)
    : POSSystem * (bool * Message) :=
  match get_product_by_barcode (db pos) code with
  | Some product => scan_product pos (id product) q
  | None => (pos, (false, BarcodeNotFound code))
  end.

(** [POSSystem.generate_receipt] *)
Definition generate_receipt (pos : POSSystem) : Message :=
  match current_order pos with
  | None => EmptyText
  | Some o =>
      Receipt (order_id o) (created_at o)
        (map (fun item =>
                {| r_name := substring 0 20 (product_name item);
                   r_quantity := quantity item;
                   r_unit_price := unit_price item;
                   r_subtotal := subtotal item |})
             (items o))
        (total o) (payment_method o)
  end.

Definition mark_paid (o : Order) (method : string) : Order :=
  {| order_id := order_id o; items := items o; member_id := member_id o;
     payment_method := method; payment_status := "Paid";
     created_at := created_at o |}.

(** [POSSystem.process_payment] *)
Definition process_payment (pos : POSSystem) (method : string) (amount : Q)
    : POSSystem * (bool * Message * Q) :=
  match current_order pos with
  | None => (pos, (false, NoOrderToProcess, 0%Q))
  | Some o =>
      if Py.ltb amount (total o) then
        (pos, (false, InsufficientAmount (total o - amount)%Q, 0%Q))
      else
        let paid := mark_paid o method in
        let saved := save_order (db pos) paid in
        let pos1 := {| db := snd saved; current_order := Some paid |} in
        if negb (fst saved) then (pos1, (false, FailedToSaveOrder, 0%Q))
        else
          let change := (amount - total paid)%Q in
          let receipt := generate_receipt pos1 in
          ({| db := snd saved; current_order := None |},
           (true, receipt, change))
  end.

(** [POSSystem.cancel_order] *)
Definition cancel_order (pos : POSSystem) : POSSystem * bool :=
  match current_order pos with
  | Some _ => ({| db := db pos; current_order := None |}, true)
  | None => (pos, false)
  end.

(** ** Vocabulary of the properties *)

(** The lines an order holds for one product. *)
Definition lines_of (pid : Z) (its : list OrderItem) : list OrderItem :=
  filter (fun item => product_id item =? pid) its.

(** The total quantity an order holds for one product. *)
Definition quantity_of (pid : Z) (its : list OrderItem) : Z :=
  fold_right Z.add 0 (map quantity (lines_of pid its)).

(** The unit price [add_item] works with: the price snapshot of the line the
    product already has, the price passed in when it has none. *)
Definition line_price (o : Order) (pid : Z) (uprice : Q) : Q :=
  match find (fun item => product_id item =? pid) (items o) with
  | Some item => unit_price item
  | None => uprice
  end.

(** A run of [scan_product] calls, [(product_id, quantity)] each, all of
    which return [True]. *)
Fixpoint scan_all (pos : POSSystem) (scans : list (Z * Z))
    : option POSSystem :=
  match scans with
  | [] => Some pos
  | (pid, q) :: rest =>
      let r := scan_product pos pid q in
      if fst (snd r) then scan_all (fst r) rest else None
  end.

(** The sum of the quantities a run scans for one product. *)
Definition scanned_quantity (pid : Z) (scans : list (Z * Z)) : Z :=
  fold_right Z.add 0
    (map snd (filter (fun s => fst s =? pid) scans)).

(** No committed order carries the identifier. *)
Definition fresh_id (d : Database) (oid : string) : Prop :=
  forall r, In r (orders d) -> o_order_id r <> oid.


(** [LIKE] and plain substring search, for comparison.  [prefix_by eq kw s]:
    [kw] is a prefix of [s] up to [eq] on characters; [contains_by eq kw s]:
    [kw] occurs in [s] up to [eq]. *)
Fixpoint prefix_by (eq : ascii -> ascii -> bool) (kw s : string) : bool :=
  match kw with
  | EmptyString => true
  | String k kw' =>
      match s with
      | EmptyString => false
      | String c s' => eq k c && prefix_by eq kw' s'
      end
  end.

Fixpoint contains_by (eq : ascii -> ascii -> bool) (kw s : string) : bool :=
  prefix_by eq kw s
  || match s with
     | EmptyString => false
     | String _ s' => contains_by eq kw s'
     end.

(** The string with its ASCII upper-case letters made lower-case. *)
Fixpoint lowercase (s : string) : string :=
  match s with
  | EmptyString => EmptyString
  | String c s' => String (Sql.lower c) (lowercase s')
  end.



(** ** Fixtures *)

Definition noon : Py.datetime :=
  {| Py.year := 2025; Py.month := 3; Py.day := 14;
     Py.hour := 12; Py.minute := 0; Py.second := 0 |}.

(** A till on the freshly initialised store. *)
Definition till : POSSystem := {| db := init_db; current_order := None |}.

(** Coca Cola x 2 and Noodles x 1, not paid yet. *)
Definition cart : POSSystem :=
  fst (scan_product (fst (scan_product (start_order noon till None) 1 2)) 2 1).

Definition cart_order : Order :=
  add_item
    (add_item (Order_new noon EmptyString None) 1 "Coca Cola 330ml" 3%Q 2)
    2 "Noodles Beef Flavor" (9 # 2)%Q 1.




(** ** More of the store and the engine *)

(** [Database.init_sample_data].  With rows in [products] nothing happens.
    On an empty [products] table the five products are inserted (rowids 1
    to 5, as the program never deletes a product) and then the two members;
    a locked file or a member identifier that is already there makes the
    INSERT raise, nothing is committed and the exception leaves
    [Database()]: [None]. *)
Definition init_sample_data (d : Database) : option Database :=
  if (Z.of_nat (List.length (products d)) =? 0) then
    if write_locked d then None
    else if existsb (fun m =>
                       existsb (fun s => (m_member_id m =? m_member_id s)%string)
                               sample_members)
                    (members d)
    then None
    else Some {| products := sample_products; orders := orders d;
                 order_items := order_items d;
                 members := members d ++ sample_members;
                 write_locked := false |}
  else Some d.

(** The calls a client makes on a [POSSystem], as data, and the till after
    one call and after a sequence of calls. *)
Inductive Command :=
| StartOrder (now : Py.datetime) (member : option string)
| ScanProduct (pid q : Z)
| ScanBarcode (code : string) (q : Z)
| ProcessPayment (method : string) (amount : Q)
| CancelOrder.

Definition exec (pos : POSSystem) (c : Command) : POSSystem :=
  match c with
  | StartOrder now member => start_order now pos member
  | ScanProduct pid q => fst (scan_product pos pid q)
  | ScanBarcode code q => fst (scan_barcode pos code q)
  | ProcessPayment method amount => fst (process_payment pos method amount)
  | CancelOrder => fst (cancel_order pos)
  end.

Definition run (pos : POSSystem) (cs : list Command) : POSSystem :=
  fold_left exec cs pos.

(** The catalog price of a product, 0 when [get_product] finds none. *)
Definition price_of (d : Database) (pid : Z) : Q :=
  match get_product d pid with
  | Some p => price p
  | None => 0%Q
  end.

(** The value of a run of scans at catalog prices. *)
Definition scan_value (d : Database) (scans : list (Z * Z)) : Q :=
  Py.sum (map (fun s => (price_of d (fst s) * inject_Z (snd s))%Q) scans).

(** Each scan of the run finds an active product with enough stock. *)
Definition scannable (d : Database) (s : Z * Z) : Prop :=
  exists p, get_product d (fst s) = Some p /\ snd s <= stock p.


(** The [order_items] rows of one order and what they add up to. *)
Definition item_rows_of (d : Database) (oid : string) : list OrderItemRow :=
  filter (fun r => (oi_order_id r =? oid)%string) (order_items d).

Definition row_subtotal (r : OrderItemRow) : Q :=
  (oi_unit_price r * inject_Z (oi_quantity r) - oi_discount r)%Q.

(** The ledger is consistent: order identifiers are unique, every item row
    belongs to a committed order, item rowids are unique and positive,
    every order is "Paid", and the total stored with an order is the sum
    over its item rows. *)
Record ledger_consistent (d : Database) : Prop := {
  lc_unique : NoDup (map o_order_id (orders d));
  lc_foreign : forall r, In r (order_items d) ->
                 In (oi_order_id r) (map o_order_id (orders d));
  lc_rowids : NoDup (map oi_id (order_items d))
              /\ Forall (fun r => 0 < oi_id r) (order_items d);
  lc_paid : Forall (fun r => o_payment_status r = "Paid") (orders d);
  lc_totals : forall r, In r (orders d) ->
                (total_amount r
                 == Py.sum (map row_subtotal (item_rows_of d (o_order_id r))))%Q
}.

(** What an item row keeps of an order line. *)
Definition line_of_row (r : OrderItemRow) : OrderItem :=
  {| product_id := oi_product_id r; product_name := oi_product_name r;
     unit_price := oi_unit_price r; quantity := oi_quantity r;
     discount := oi_discount r |}.

(** The keyword is made of [%] only. *)
Fixpoint all_percent (kw : string) : bool :=
  match kw with
  | EmptyString => true
  | String k kw' => Ascii.eqb k Sql.percent && all_percent kw'
  end.

(** A clock reading within the ranges of a calendar date and time of day
    with a four-digit year. *)
Definition clock_valid (t : Py.datetime) : Prop :=
  (Py.year t < 100 * 100 /\ Py.month t < 100 /\ Py.day t < 100 /\
   Py.hour t < 100 /\ Py.minute t < 100 /\ Py.second t < 100)%nat.

(** Every line carries the catalog price of its product. *)
Definition priced_lines (d : Database) (its : list OrderItem) : Prop :=
  forall item, In item its ->
    exists p, get_product d (product_id item) = Some p
              /\ unit_price item = price p.

(** The current order, if any, has one line per product and no discount. *)
Definition order_well_formed (pos : POSSystem) : Prop :=
  forall o, current_order pos = Some o ->
    NoDup (map product_id (items o))
    /\ Forall (fun item => discount item = 0%Q) (items o).

(** ** Sums *)

Lemma fold_Qplus_acc (xs : list Q) (a : Q) :
  (fold_left Qplus xs a == a + fold_left Qplus xs 0)%Q.
Proof.
  revert a; induction xs as [|x xs IH]; intro a; simpl.
  - ring.
  - rewrite (IH (a + x)%Q), (IH (0 + x)%Q). ring.
Qed.

Lemma sum_cons (x : Q) (xs : list Q) :
  (Py.sum (x :: xs) == x + Py.sum xs)%Q.
Proof.
  unfold Py.sum; simpl. rewrite fold_Qplus_acc. ring.
Qed.

Lemma sum_app (xs ys : list Q) :
  (Py.sum (xs ++ ys) == Py.sum xs + Py.sum ys)%Q.
Proof.
  induction xs as [|x xs IH]; simpl.
  - unfold Py.sum at 2; simpl. ring.
  - rewrite !sum_cons, IH. ring.
Qed.

(** ** [Order.add_item] *)

Lemma subtotal_add_quantity (item : OrderItem) (q : Z) :
  (subtotal (add_quantity item q)
   == subtotal item + unit_price item * inject_Z q)%Q.
Proof.
  unfold subtotal, add_quantity; simpl. rewrite inject_Z_plus. ring.
Qed.

Lemma add_item_merge_ids its pid q its' :
  add_item_merge its pid q = Some its' ->
  map product_id its' = map product_id its /\ In pid (map product_id its).
Proof.
  revert its'; induction its as [|item rest IH]; intros its' H; simpl in H.
  - discriminate.
  - destruct (product_id item =? pid) eqn:E.
    + injection H as <-. apply Z.eqb_eq in E. simpl. auto.
    + destruct (add_item_merge rest pid q) as [r|] eqn:M; simpl in H;
        [|discriminate].
      injection H as <-. destruct (IH r eq_refl) as [Hm Hin].
      simpl. rewrite Hm. auto.
Qed.

Lemma add_item_merge_none its pid q :
  add_item_merge its pid q = None -> ~ In pid (map product_id its).
Proof.
  induction its as [|item rest IH]; simpl; intros H; [tauto|].
  destruct (product_id item =? pid) eqn:E; [discriminate|].
  destruct (add_item_merge rest pid q); [discriminate|].
  apply Z.eqb_neq in E. intros [F|F]; [congruence | exact (IH eq_refl F)].
Qed.

Lemma add_item_merge_find its pid q :
  add_item_merge its pid q = None ->
  find (fun item => product_id item =? pid) its = None.
Proof.
  induction its as [|item rest IH]; simpl; intros H; [reflexivity|].
  destruct (product_id item =? pid); [discriminate|].
  destruct (add_item_merge rest pid q); [discriminate | auto].
Qed.

Lemma add_item_merge_quantity its pid q its' pid' :
  add_item_merge its pid q = Some its' ->
  quantity_of pid' its'
  = quantity_of pid' its + (if pid =? pid' then q else 0).
Proof.
  unfold quantity_of, lines_of.
  revert its'; induction its as [|item rest IH]; intros its' H; simpl in H.
  - discriminate.
  - destruct (product_id item =? pid) eqn:E.
    + injection H as <-. apply Z.eqb_eq in E. simpl. rewrite E.
      destruct (pid =? pid'); simpl; lia.
    + destruct (add_item_merge rest pid q) as [r|] eqn:M; simpl in H;
        [|discriminate].
      injection H as <-. specialize (IH r eq_refl). simpl.
      destruct (product_id item =? pid'); simpl; lia.
Qed.

Lemma add_item_merge_total its pid q its' :
  add_item_merge its pid q = Some its' ->
  exists item,
    find (fun item => product_id item =? pid) its = Some item /\
    (Py.sum (map subtotal its')
     == Py.sum (map subtotal its) + unit_price item * inject_Z q)%Q.
Proof.
  revert its'; induction its as [|item rest IH]; intros its' H; simpl in H.
  - discriminate.
  - simpl. destruct (product_id item =? pid) eqn:E.
    + injection H as <-. exists item. split; [reflexivity|].
      simpl. rewrite !sum_cons, subtotal_add_quantity. ring.
    + destruct (add_item_merge rest pid q) as [r|] eqn:M; simpl in H;
        [|discriminate].
      injection H as <-. destruct (IH r eq_refl) as (it & Hf & Hs).
      exists it. split; [assumption|].
      simpl. rewrite !sum_cons, Hs. ring.
Qed.

Lemma quantity_of_app pid xs ys :
  quantity_of pid (xs ++ ys) = quantity_of pid xs + quantity_of pid ys.
Proof.
  unfold quantity_of, lines_of. rewrite filter_app, map_app.
  induction (map quantity (filter (fun item => product_id item =? pid) xs))
    as [|z zs IH]; simpl; lia.
Qed.

(** [add_item] adds [q] to the quantity held for its product and leaves
    every other product alone. *)
Lemma add_item_quantity o pid pname uprice q pid' :
  quantity_of pid' (items (add_item o pid pname uprice q))
  = quantity_of pid' (items o) + (if pid =? pid' then q else 0).
Proof.
  unfold add_item.
  destruct (add_item_merge (items o) pid q) as [its|] eqn:M; simpl.
  - eapply add_item_merge_quantity; eassumption.
  - rewrite quantity_of_app. f_equal.
    unfold quantity_of, lines_of; simpl.
    destruct (pid =? pid'); simpl; lia.
Qed.

(** [add_item] keeps the product identifiers of the lines distinct, and the
    product it was called for has a line afterwards. *)
Lemma add_item_ids o pid pname uprice q :
  NoDup (map product_id (items o)) ->
  NoDup (map product_id (items (add_item o pid pname uprice q)))
  /\ In pid (map product_id (items (add_item o pid pname uprice q)))
  /\ (forall p, In p (map product_id (items o)) ->
                In p (map product_id (items (add_item o pid pname uprice q)))).
Proof.
  intro ND. unfold add_item.
  destruct (add_item_merge (items o) pid q) as [its|] eqn:M; simpl.
  - destruct (add_item_merge_ids _ _ _ _ M) as [-> Hin]. auto.
  - apply add_item_merge_none in M. rewrite map_app; simpl.
    repeat split.
    + apply NoDup_app; repeat split; auto.
      * constructor; [simpl; tauto | constructor].
      * intros a Ha [<-|[]]. contradiction.
    + apply in_or_app; right; simpl; auto.
    + intros p Hp. apply in_or_app; auto.
Qed.

Lemma add_item_total o pid pname uprice q :
  (total (add_item o pid pname uprice q)
   == total o + line_price o pid uprice * inject_Z q)%Q.
Proof.
  unfold total, add_item, line_price.
  destruct (add_item_merge (items o) pid q) as [its|] eqn:M; simpl.
  - destruct (add_item_merge_total _ _ _ _ M) as (it & -> & Hs). exact Hs.
  - rewrite (add_item_merge_find _ _ _ M), map_app, sum_app; simpl.
    rewrite sum_cons. unfold subtotal; simpl.
    change (Py.sum []) with 0%Q. ring.
Qed.

(** Distinct identifiers and a line for [pid] mean exactly one line. *)
Lemma lines_of_unique pid its :
  NoDup (map product_id its) -> In pid (map product_id its) ->
  exists line, lines_of pid its = [line].
Proof.
  unfold lines_of.
  induction its as [|item rest IH]; simpl; intros ND Hin; [tauto|].
  inversion ND as [|x l Hnot ND']; subst.
  destruct (product_id item =? pid) eqn:E.
  - apply Z.eqb_eq in E. exists item. f_equal.
    assert (forall l, ~ In pid (map product_id l) ->
                      filter (fun i => product_id i =? pid) l = []) as K.
    { induction l as [|y l IHl]; simpl; intros Hl; [reflexivity|].
      destruct (product_id y =? pid) eqn:Ey.
      - apply Z.eqb_eq in Ey. tauto.
      - apply IHl. tauto. }
    apply K. congruence.
  - apply Z.eqb_neq in E. destruct Hin as [F|Hin]; [congruence|].
    apply IH; assumption.
Qed.

(** ** [POSSystem.scan_product] *)

Lemma get_product_id d pid product :
  get_product d pid = Some product -> id product = pid /\ active product = true.
Proof.
  unfold get_product. intro H. apply find_some in H as [_ H].
  apply andb_true_iff in H as [H1 H2]. apply Z.eqb_eq in H1. auto.
Qed.

(** What a successful scan did. *)
Lemma scan_product_true pos pid q pos' msg :
  scan_product pos pid q = (pos', (true, msg)) ->
  exists o product,
    current_order pos = Some o /\
    get_product (db pos) pid = Some product /\
    q <= stock product /\
    pos' = {| db := db pos;
              current_order :=
                Some (add_item o pid (name product) (price product) q) |}.
Proof.
  unfold scan_product.
  destruct (current_order pos) as [o|]; [|intro H; inversion H].
  destruct (get_product (db pos) pid) as [product|] eqn:G;
    [|intro H; inversion H].
  destruct (stock product <? q) eqn:L; intro H; inversion H; subst.
  apply Z.ltb_ge in L. destruct (get_product_id _ _ _ G) as [-> _].
  exists o, product. auto.
Qed.

(** A run of successful scans keeps one line per product and adds up, per
    product, the quantities scanned. *)
Lemma scan_all_merge scans :
  forall pos o pos',
    current_order pos = Some o ->
    NoDup (map product_id (items o)) ->
    scan_all pos scans = Some pos' ->
    exists o',
      current_order pos' = Some o' /\
      NoDup (map product_id (items o')) /\
      (forall p, quantity_of p (items o')
                 = quantity_of p (items o) + scanned_quantity p scans) /\
      (forall p, In p (map product_id (items o)) \/ In p (map fst scans) ->
                 In p (map product_id (items o'))).
Proof.
  induction scans as [|[pid q] rest IH]; intros pos o pos' Ho ND Hrun.
  - simpl in Hrun. injection Hrun as <-. exists o. repeat split; auto.
    + intro p. unfold scanned_quantity; simpl. lia.
    + intros p [H|[]]. exact H.
  - simpl in Hrun.
    destruct (scan_product pos pid q) as [pos1 [ok msg]] eqn:S.
    simpl in Hrun. destruct ok; [|discriminate].
    destruct (scan_product_true _ _ _ _ _ S) as (o0 & product & Ho0 & _ & _ & ->).
    rewrite Ho in Ho0. injection Ho0 as <-.
    destruct (add_item_ids o pid (name product) (price product) q ND)
      as (ND1 & Hpid & Hkeep).
    set (o1 := add_item o pid (name product) (price product) q) in *.
    assert (Ho1 : current_order {| db := db pos; current_order := Some o1 |}
                  = Some o1) by reflexivity.
    destruct (IH _ _ _ Ho1 ND1 Hrun) as (o' & Ho' & ND' & Hq & Hin).
    exists o'. repeat split; auto.
    + intro p. rewrite Hq. unfold o1. rewrite add_item_quantity.
      unfold scanned_quantity; simpl.
      rewrite (Z.eqb_sym pid p). destruct (p =? pid); simpl; lia.
    + intros p [Hp|[Hp|Hp]]; apply Hin; auto.
      simpl in Hp. subst p. auto.
Qed.

(** ** [Database.update_stock] *)

Lemma update_stock_locked d pid q :
  write_locked d = true -> update_stock d pid q = (false, d).
Proof.
  unfold update_stock. intros ->. reflexivity.
Qed.

Lemma update_stock_lock_flag d pid q :
  write_locked (snd (update_stock d pid q)) = write_locked d.
Proof.
  unfold update_stock. destruct (write_locked d) eqn:E; simpl; auto.
Qed.

(** ** [Database.save_order] *)

(** The loop of [save_order] runs under the write lock of its own
    connection, so none of its [update_stock] calls changes the file. *)
Lemma save_items_locked oid its :
  forall rows d,
    write_locked d = true ->
    snd (fold_left (save_item oid) its (rows, d)) = d.
Proof.
  induction its as [|item rest IH]; intros rows d L; simpl; [reflexivity|].
  unfold save_item at 2; simpl.
  rewrite (update_stock_locked d _ _ L); simpl. apply IH. exact L.
Qed.






(** ** The merge invariant of scanning *)

(** C4. After [start_order] and any run of successful [scan_product] calls,
    every product that was scanned has exactly one line in the order, and
    the quantity of that line is the sum of the quantities scanned for the
    product. *)
Theorem scan_merge_invariant :
  forall now pos member scans pos' pid,
    scan_all (start_order now pos member) scans = Some pos' ->
    In pid (map fst scans) ->
    exists o line,
      current_order pos' = Some o /\
      lines_of pid (items o) = [line] /\
      quantity line = scanned_quantity pid scans.
Proof.
  intros now pos member scans pos' pid Hrun Hin.
  destruct (scan_all_merge scans (start_order now pos member)
              (Order_new now EmptyString member) pos' eq_refl (NoDup_nil _) Hrun)
    as (o & Ho & ND & Hq & Hids).
  destruct (lines_of_unique pid (items o) ND (Hids pid (or_intror Hin)))
    as [line Hline].
  exists o, line. repeat split; auto.
  specialize (Hq pid). unfold quantity_of in Hq. rewrite Hline in Hq.
  simpl in Hq. lia.
Qed.

Lemma scan_merge_invariant_witness :
  exists o line,
    current_order
      (fst (scan_product
              (fst (scan_product
                      (fst (scan_product (start_order noon till None) 1 2))
                      2 1))
              1 3))
    = Some o /\
    lines_of 1 (items o) = [line] /\
    quantity line = 5.
Proof.
  apply (scan_merge_invariant noon till None [(1, 2); (2, 1); (1, 3)] _ 1).
  - reflexivity.
  - simpl. auto.
Defined.

(** ** Quantities are not validated at scan time *)

(** C10. With an order open, an active product found and [q <= stock],
    whatever the sign of [q], [scan_product] returns [True] and hands [q] to
    [add_item]: the quantity held for the product changes by [q] and the
    total by [q] times the unit price of the line, so a negative [q] on a
    positively priced line lowers the total. *)
Theorem scan_quantity_unchecked :
  forall pos o pid q product,
    current_order pos = Some o ->
    get_product (db pos) pid = Some product ->
    q <= stock product ->
    scan_product pos pid q
    = ({| db := db pos;
          current_order :=
            Some (add_item o (id product) (name product) (price product) q) |},
       (true, Added (name product) q))
    /\ quantity_of pid
         (items (add_item o (id product) (name product) (price product) q))
       = quantity_of pid (items o) + q
    /\ (total (add_item o (id product) (name product) (price product) q)
        == total o + line_price o pid (price product) * inject_Z q)%Q
    /\ (q < 0 -> (0 < line_price o pid (price product))%Q ->
        (total (add_item o (id product) (name product) (price product) q)
         < total o)%Q).
Proof.
  intros pos o pid q product Ho G Hq.
  destruct (get_product_id _ _ _ G) as [Hid _].
  assert (T := add_item_total o pid (name product) (price product) q).
  rewrite Hid. repeat split.
  - unfold scan_product. rewrite Ho, G.
    destruct (stock product <? q) eqn:L; [apply Z.ltb_lt in L; lia|].
    rewrite Hid. reflexivity.
  - rewrite add_item_quantity, Z.eqb_refl. reflexivity.
  - exact T.
  - intros Hneg Hpos. rewrite T.
    assert (inject_Z q < 0)%Q as Hq0.
    { change 0%Q with (inject_Z 0). rewrite <- Zlt_Qlt. exact Hneg. }
    assert (line_price o pid (price product) * inject_Z q < 0)%Q; [|lra].
    setoid_replace 0%Q with (line_price o pid (price product) * 0)%Q by ring.
    apply Qmult_lt_l; assumption.
Qed.

Lemma scan_quantity_unchecked_witness :
  exists o',
    current_order (fst (scan_product cart 1 (-1))) = Some o' /\
    (total o' < total cart_order)%Q.
Proof.
  destruct (scan_quantity_unchecked cart cart_order 1 (-1) coca_cola
              eq_refl eq_refl)
    as (Hscan & _ & _ & Hlower).
  - simpl. lia.
  - eexists. split.
    + rewrite Hscan. reflexivity.
    + apply Hlower; [lia | reflexivity].
Defined.

(** ** Payment *)

Lemma ltb_lt (a b : Q) : Py.ltb a b = true <-> (a < b)%Q.
Proof.
  unfold Py.ltb. rewrite negb_true_iff, <- not_true_iff_false, Qle_bool_iff.
  split; [apply Qnot_le_lt | apply Qlt_not_le].
Qed.

Lemma ltb_ge (a b : Q) : Py.ltb a b = false <-> (b <= a)%Q.
Proof.
  unfold Py.ltb. rewrite negb_false_iff. apply Qle_bool_iff.
Qed.

(** C2. With an order open and less tendered than its total,
    [process_payment] returns [False] with the shortfall [total - amount],
    which is positive, and the till is exactly as before: the same order,
    untouched, is still the current one, and the store is unchanged. *)
Theorem insufficient_payment_rejected :
  forall pos o method amount,
    current_order pos = Some o ->
    (amount < total o)%Q ->
    process_payment pos method amount
    = (pos, (false, InsufficientAmount (total o - amount)%Q, 0%Q))
    /\ current_order (fst (process_payment pos method amount)) = Some o
    /\ (0 < total o - amount)%Q.
Proof.
  intros pos o method amount Ho Hlt.
  assert (process_payment pos method amount
          = (pos, (false, InsufficientAmount (total o - amount)%Q, 0%Q)))
    as E.
  { unfold process_payment. rewrite Ho.
    apply ltb_lt in Hlt. rewrite Hlt. reflexivity. }
  rewrite E. simpl. repeat split; auto. lra.
Qed.

Lemma insufficient_payment_rejected_witness :
  process_payment cart "Cash" 10%Q
  = (cart, (false, InsufficientAmount (total cart_order - 10)%Q, 0%Q))
  /\ current_order (fst (process_payment cart "Cash" 10%Q)) = Some cart_order
  /\ (0 < total cart_order - 10)%Q.
Proof.
  apply (insufficient_payment_rejected cart cart_order "Cash" 10%Q).
  - reflexivity.
  - reflexivity.
Defined.

Lemma save_order_false d order :
  fst (save_order d order) = false -> save_order d order = (false, d).
Proof.
  unfold save_order. destruct (write_locked d); [reflexivity|].
  destruct (existsb _ (orders d)); [reflexivity|].
  simpl. discriminate.
Qed.



(** ** The stock decrement *)



(** ** The ledger *)

Lemma save_order_true d order d1 :
  save_order d order = (true, d1) ->
  orders d1 = orders d ++ [order_row order].
Proof.
  unfold save_order. destruct (write_locked d); [discriminate|].
  destruct (existsb _ (orders d)); [discriminate|].
  intro H. injection H as <-. reflexivity.
Qed.



(** ** The daily summary *)

(** C9. For a date on which the ledger has no order, [get_daily_sales]
    returns the summary with count 0, total 0 and average 0. *)
Theorem daily_sales_empty_day :
  forall now d date,
    (forall r, In r (orders d) ->
               Sql.date (o_created_at r) <> report_date now date) ->
    get_daily_sales now d date
    = {| order_count := 0; total_sales := 0%Q; avg_order := 0%Q |}.
Proof.
  intros now d date H. unfold get_daily_sales.
  assert (filter (fun r => (Sql.date (o_created_at r)
                            =? report_date now date)%string) (orders d)
          = []) as ->.
  { induction (orders d) as [|r rs IH]; simpl; [reflexivity|].
    destruct (String.eqb_spec (Sql.date (o_created_at r))
                (report_date now date)) as [E|E].
    - exfalso. apply (H r); [left; reflexivity | exact E].
    - apply IH. intros x Hx. apply H. right. exact Hx. }
  reflexivity.
Qed.

Lemma daily_sales_empty_day_witness :
  get_daily_sales noon (db (fst (process_payment cart "Cash" 11%Q)))
    (Some "2025-03-15")
  = {| order_count := 0; total_sales := 0%Q; avg_order := 0%Q |}.
Proof.
  apply (daily_sales_empty_day noon
           (db (fst (process_payment cart "Cash" 11%Q)))
           (Some "2025-03-15")).
  intros r [<-|[]]. discriminate.
Defined.

(** ** Settlement *)




(** The products table is the same before and after [save_order]: each
    [update_stock] of its loop runs on a second connection while the first
    holds the write lock, raises, and returns [False] unnoticed. *)
Lemma save_order_keeps_stock d order :
  products (snd (save_order d order)) = products d.
Proof.
  unfold save_order. destruct (write_locked d) eqn:L; [reflexivity|].
  destruct (existsb _ (orders d)); [reflexivity|].
  simpl. rewrite save_items_locked by reflexivity. reflexivity.
Qed.


(** ** Member accrual *)

Lemma accrue_member_id mid a m : m_member_id (accrue mid a m) = m_member_id m.
Proof.
  unfold accrue. destruct (m_member_id m =? mid)%string; reflexivity.
Qed.








(** ** Keyword search *)

Lemma like_percent_all s : Sql.like "%" s = true.
Proof.
  induction s as [|c s IH]; simpl; [reflexivity|].
  simpl in IH. exact IH.
Qed.





(** [contains_by Ascii.eqb] is the substring relation, and
    [contains_by Sql.ci_eqb] is that relation on the lower-cased strings. *)
Lemma prefix_by_eqb kw s :
  prefix_by Ascii.eqb kw s = true <-> exists post, s = (kw ++ post)%string.
Proof.
  revert s; induction kw as [|k kw IH]; intro s; simpl.
  - split; [intros _; exists s; reflexivity | reflexivity].
  - destruct s as [|c s].
    + split; [discriminate | intros [post H]; discriminate].
    + rewrite andb_true_iff, Ascii.eqb_eq, IH. split.
      * intros [-> [post ->]]. exists post. reflexivity.
      * intros [post H]. injection H as -> ->. split; [reflexivity|].
        exists post. reflexivity.
Qed.

Lemma contains_by_eqb kw s :
  contains_by Ascii.eqb kw s = true
  <-> exists pre post, s = (pre ++ kw ++ post)%string.
Proof.
  split.
  - induction s as [|c s IH]; simpl; rewrite orb_true_iff.
    + intros [H|H]; [|discriminate].
      apply prefix_by_eqb in H as [post ->]. exists EmptyString, post.
      reflexivity.
    + intros [H|H].
      * apply prefix_by_eqb in H as [post ->]. exists EmptyString, post.
        reflexivity.
      * destruct (IH H) as (pre & post & ->).
        exists (String c pre), post. reflexivity.
  - intros (pre & post & ->). induction pre as [|c pre IH].
    + assert (prefix_by Ascii.eqb kw (kw ++ post) = true) as P
        by (apply prefix_by_eqb; exists post; reflexivity).
      simpl. destruct (kw ++ post)%string; simpl; rewrite P; reflexivity.
    + simpl. simpl in IH. rewrite IH. apply orb_true_r.
Qed.

Lemma prefix_by_ci kw s :
  prefix_by Sql.ci_eqb kw s = prefix_by Ascii.eqb (lowercase kw) (lowercase s).
Proof.
  revert s; induction kw as [|k kw IH]; intro s; simpl; [reflexivity|].
  destruct s as [|c s]; simpl; [reflexivity|]. rewrite IH. reflexivity.
Qed.

Lemma contains_by_ci kw s :
  contains_by Sql.ci_eqb kw s
  = contains_by Ascii.eqb (lowercase kw) (lowercase s).
Proof.
  induction s as [|c s IH]; simpl; rewrite prefix_by_ci; simpl;
    [reflexivity|].
  rewrite IH. reflexivity.
Qed.




(** ** Scenarios of the specification on the sample store *)

(** An order with [(pid=1, 3.00, 2)] and [(pid=2, 4.50, 1)] totals 10.50 and
    counts three items. *)
Example cart_total :
  current_order cart = Some cart_order
  /\ (total cart_order == 21 # 2)%Q
  /\ item_count cart_order = 3.
Proof.
  repeat split.
Qed.

(** Product 7 does not exist: the scan fails and the till is unchanged. *)
Example scan_unknown_product :
  scan_product cart 7 1 = (cart, (false, ProductNotFound 7)).
Proof.
  reflexivity.
Qed.

(** Product 3 has 30 in stock: a scan of 100 fails and reports the 30. *)
Example scan_beyond_stock :
  scan_product cart 3 100 = (cart, (false, InsufficientStock 30)).
Proof.
  reflexivity.
Qed.

(** start(member M001), scan(1, 3), pay(Cash, 9.00): success, change 0, and
    M001 goes from 500 points and 8500 spent to 590 points and 8509. *)
Example member_sale :
  let pos := fst (scan_product (start_order noon till (Some "M001")) 1 3) in
  let paid := process_payment pos "Cash" 9%Q in
  fst (fst (snd paid)) = true
  /\ (snd (snd paid) == 0)%Q
  /\ current_order (fst paid) = None
  /\ (exists m, get_member (db (fst paid)) "M001" = Some m
                /\ points m = 590 /\ (total_spent m == 8509)%Q).
Proof.
  simpl. split; [reflexivity|]. split; [reflexivity|]. split; [reflexivity|].
  eexists. split; [reflexivity|]. split; reflexivity.
Qed.

(** Two scans of 60 pass the stock check of 100 one after the other and
    merge into a line of 120. *)
Example scans_exceed_stock_together :
  option_map (fun p => option_map (fun o => map quantity (items o))
                         (current_order p))
    (scan_all (start_order noon till None) [(1, 60); (1, 60)])
  = Some (Some [120]).
Proof.
  reflexivity.
Qed.

(** Standing alone, [update_stock] does decrement: 100 becomes 98. *)
Example update_stock_alone :
  fst (update_stock init_db 1 2) = true
  /\ map stock (products (snd (update_stock init_db 1 2)))
     = [98; 50; 30; 20; 40].
Proof.
  split; reflexivity.
Qed.

(** ** [Order.remove_item] *)

Lemma lines_of_filter_other pid pid' (its : list OrderItem) :
  pid' <> pid ->
  lines_of pid' (filter (fun item => negb (product_id item =? pid)) its)
  = lines_of pid' its.
Proof.
  intro Hne. unfold lines_of. induction its as [|item rest IH]; simpl;
    [reflexivity|].
  destruct (product_id item =? pid) eqn:E; simpl.
  - apply Z.eqb_eq in E.
    destruct (product_id item =? pid') eqn:E'; [|exact IH].
    apply Z.eqb_eq in E'. congruence.
  - rewrite IH. reflexivity.
Qed.

(** X1. [remove_item] drops every line of the product, however many units
    it holds, and keeps the lines of every other product as they were; the
    rest of the order is untouched. *)
Theorem remove_item_drops_product :
  forall o pid,
    lines_of pid (items (remove_item o pid)) = []
    /\ quantity_of pid (items (remove_item o pid)) = 0
    /\ (forall pid', pid' <> pid ->
          lines_of pid' (items (remove_item o pid)) = lines_of pid' (items o))
    /\ order_id (remove_item o pid) = order_id o
    /\ member_id (remove_item o pid) = member_id o
    /\ payment_status (remove_item o pid) = payment_status o.
Proof.
  intros o pid.
  assert (lines_of pid (items (remove_item o pid)) = []) as E.
  { unfold remove_item, lines_of; simpl.
    induction (items o) as [|item rest IH]; simpl; [reflexivity|].
    destruct (product_id item =? pid) eqn:K; simpl; [exact IH|].
    rewrite K. exact IH. }
  split; [exact E|]. split; [unfold quantity_of; rewrite E; reflexivity|].
  split; [|repeat split].
  intros pid' Hne. apply lines_of_filter_other. exact Hne.
Qed.

Lemma add_item_merge_filter its pid q its' :
  add_item_merge its pid q = Some its' ->
  filter (fun item => negb (product_id item =? pid)) its'
  = filter (fun item => negb (product_id item =? pid)) its.
Proof.
  revert its'; induction its as [|item rest IH]; intros its' H; simpl in H.
  - discriminate.
  - destruct (product_id item =? pid) eqn:E.
    + injection H as <-. simpl. rewrite E. reflexivity.
    + destruct (add_item_merge rest pid q) as [r|] eqn:M; simpl in H;
        [|discriminate].
      injection H as <-. simpl. rewrite E. simpl. rewrite (IH r eq_refl).
      reflexivity.
Qed.

(** X2. Removing a product right after adding it gives the order that
    removing it before the addition gives: the units the order already held
    for the product go as well.  When the order held none, the addition is
    undone exactly. *)
Theorem remove_after_add :
  forall o pid pname uprice q,
    remove_item (add_item o pid pname uprice q) pid = remove_item o pid
    /\ (~ In pid (map product_id (items o)) ->
        remove_item (add_item o pid pname uprice q) pid = o).
Proof.
  intros o pid pname uprice q.
  assert (remove_item (add_item o pid pname uprice q) pid = remove_item o pid)
    as E.
  { unfold remove_item, add_item.
    destruct (add_item_merge (items o) pid q) as [its|] eqn:M; simpl;
      unfold set_items; simpl; f_equal.
    - eapply add_item_merge_filter; eassumption.
    - rewrite filter_app. simpl. rewrite Z.eqb_refl. simpl.
      apply app_nil_r. }
  split; [exact E|]. intro Hnot. rewrite E. clear E.
  unfold remove_item, set_items. destruct o as [oid its m pm ps ca]; simpl in *.
  f_equal. induction its as [|item rest IH]; simpl; [reflexivity|].
  simpl in Hnot. destruct (product_id item =? pid) eqn:K.
  - apply Z.eqb_eq in K. tauto.
  - simpl. f_equal. apply IH. tauto.
Qed.

Lemma sum_filter_split (f : OrderItem -> bool) (its : list OrderItem) :
  (Py.sum (map subtotal its)
   == Py.sum (map subtotal (filter f its))
      + Py.sum (map subtotal (filter (fun item => negb (f item)) its)))%Q.
Proof.
  induction its as [|item rest IH]; simpl.
  - unfold Py.sum; simpl. ring.
  - destruct (f item); simpl; rewrite !sum_cons, IH; ring.
Qed.

(** X3. [remove_item] lowers the total by the subtotals of the lines it
    drops and the item count by their quantities. *)
Theorem remove_item_total :
  forall o pid,
    (total (remove_item o pid)
     == total o - Py.sum (map subtotal (lines_of pid (items o))))%Q
    /\ item_count (remove_item o pid)
       = item_count o - quantity_of pid (items o).
Proof.
  intros o pid. split.
  - unfold total, remove_item, lines_of; simpl.
    rewrite (sum_filter_split (fun item => product_id item =? pid) (items o)).
    ring.
  - unfold item_count, remove_item, quantity_of, lines_of, Py.sumZ; simpl.
    assert (forall xs a, fold_left Z.add xs a = a + fold_right Z.add 0 xs) as F.
    { induction xs as [|x xs IH]; intro a; simpl; [lia|]. rewrite IH. lia. }
    rewrite !F. induction (items o) as [|item rest IH]; simpl; [reflexivity|].
    destruct (product_id item =? pid); simpl; lia.
Qed.

(** ** Runs of scans *)

Lemma sumZ_right (xs : list Z) : Py.sumZ xs = fold_right Z.add 0 xs.
Proof.
  unfold Py.sumZ.
  assert (forall ys a, fold_left Z.add ys a = a + fold_right Z.add 0 ys) as F.
  { induction ys as [|y ys IH]; intro a; simpl; [lia|]. rewrite IH. lia. }
  rewrite F. lia.
Qed.

Lemma add_item_merge_count its pid q its' :
  add_item_merge its pid q = Some its' ->
  fold_right Z.add 0 (map quantity its')
  = fold_right Z.add 0 (map quantity its) + q.
Proof.
  revert its'; induction its as [|item rest IH]; intros its' H; simpl in H.
  - discriminate.
  - destruct (product_id item =? pid).
    + injection H as <-. simpl. lia.
    + destruct (add_item_merge rest pid q) as [r|] eqn:M; simpl in H;
        [|discriminate].
      injection H as <-. simpl. rewrite (IH r eq_refl). lia.
Qed.

Lemma add_item_count o pid pname uprice q :
  item_count (add_item o pid pname uprice q) = item_count o + q.
Proof.
  unfold item_count, add_item. rewrite !sumZ_right.
  destruct (add_item_merge (items o) pid q) as [its|] eqn:M; simpl.
  - eapply add_item_merge_count; eassumption.
  - rewrite map_app, fold_right_app. simpl.
    induction (map quantity (items o)) as [|x xs IH]; simpl; lia.
Qed.

Lemma add_item_merge_in its pid q its' item :
  add_item_merge its pid q = Some its' -> In item its' ->
  In item its \/ exists old, In old its /\ item = add_quantity old q.
Proof.
  revert its'; induction its as [|x rest IH]; intros its' H Hin; simpl in H.
  - discriminate.
  - destruct (product_id x =? pid).
    + injection H as <-. destruct Hin as [<-|Hin].
      * right. exists x. split; [left; reflexivity | reflexivity].
      * left. right. exact Hin.
    + destruct (add_item_merge rest pid q) as [r|] eqn:M; simpl in H;
        [|discriminate].
      injection H as <-. destruct Hin as [<-|Hin].
      * left. left. reflexivity.
      * destruct (IH r eq_refl Hin) as [K|(old & K & ->)].
        -- left. right. exact K.
        -- right. exists old. split; [right; exact K | reflexivity].
Qed.

Lemma add_item_priced d o product q :
  priced_lines d (items o) ->
  get_product d (id product) = Some product ->
  priced_lines d
    (items (add_item o (id product) (name product) (price product) q))
  /\ line_price o (id product) (price product) = price product.
Proof.
  intros P G. split.
  - unfold add_item.
    destruct (add_item_merge (items o) (id product) q) as [its|] eqn:M; simpl.
    + intros item Hin.
      destruct (add_item_merge_in _ _ _ _ _ M Hin) as [K|(old & K & ->)].
      * apply P. exact K.
      * simpl. apply P. exact K.
    + intros item Hin. apply in_app_or in Hin as [K|[<-|[]]].
      * apply P. exact K.
      * simpl. exists product. auto.
  - unfold line_price.
    destruct (find (fun item => product_id item =? id product) (items o))
      as [item|] eqn:F; [|reflexivity].
    apply find_some in F as [Hin E]. apply Z.eqb_eq in E.
    destruct (P item Hin) as (p & Gp & ->). rewrite E, G in Gp.
    injection Gp as <-. reflexivity.
Qed.

Lemma scan_product_accepts pos o pid q product :
  current_order pos = Some o ->
  get_product (db pos) pid = Some product ->
  q <= stock product ->
  scan_product pos pid q
  = ({| db := db pos;
        current_order :=
          Some (add_item o (id product) (name product) (price product) q) |},
     (true, Added (name product) q)).
Proof.
  intros Ho G Hq. unfold scan_product. rewrite Ho, G.
  destruct (stock product <? q) eqn:L; [apply Z.ltb_lt in L; lia|].
  reflexivity.
Qed.

(** What a run of successful scans adds up to. *)
Lemma scan_all_accounts scans :
  forall pos o pos',
    current_order pos = Some o ->
    priced_lines (db pos) (items o) ->
    scan_all pos scans = Some pos' ->
    exists o',
      current_order pos' = Some o' /\
      db pos' = db pos /\
      priced_lines (db pos) (items o') /\
      item_count o' = item_count o + fold_right Z.add 0 (map snd scans) /\
      (total o' == total o + scan_value (db pos) scans)%Q.
Proof.
  induction scans as [|[pid q] rest IH]; intros pos o pos' Ho P Hrun.
  - simpl in Hrun. injection Hrun as <-. exists o. repeat split; auto.
    + simpl. lia.
    + unfold scan_value, Py.sum. simpl. ring.
  - simpl in Hrun.
    destruct (scan_product pos pid q) as [pos1 [ok msg]] eqn:S.
    simpl in Hrun. destruct ok; [|discriminate].
    destruct (scan_product_true _ _ _ _ _ S)
      as (o0 & product & Ho0 & G & _ & ->).
    rewrite Ho in Ho0. injection Ho0 as <-.
    destruct (get_product_id _ _ _ G) as [Hid _].
    assert (G' := G). rewrite <- Hid in G'.
    destruct (add_item_priced (db pos) o product q P G') as [P1 LP].
    rewrite Hid in P1, LP.
    set (o1 := add_item o pid (name product) (price product) q) in *.
    assert (Ho1 : current_order {| db := db pos; current_order := Some o1 |}
                  = Some o1) by reflexivity.
    destruct (IH _ _ _ Ho1 P1 Hrun) as (o' & Ho' & Hdb & P' & Hc & Ht).
    simpl in Hdb, P', Ht.
    exists o'. repeat split; auto.
    + rewrite Hc. unfold o1. rewrite add_item_count. simpl. lia.
    + rewrite Ht. unfold o1. rewrite add_item_total, LP.
      unfold scan_value. simpl map. rewrite sum_cons. simpl fst; simpl snd.
      unfold price_of. rewrite G. ring.
Qed.

(** X4. After [start_order] and a run of successful scans, [item_count] is
    the sum of all the quantities scanned. *)
Theorem scanned_item_count :
  forall now pos member scans pos',
    scan_all (start_order now pos member) scans = Some pos' ->
    exists o,
      current_order pos' = Some o
      /\ item_count o = fold_right Z.add 0 (map snd scans).
Proof.
  intros now pos member scans pos' Hrun.
  destruct (scan_all_accounts scans (start_order now pos member)
              (Order_new now EmptyString member) pos' eq_refl)
    as (o & Ho & _ & _ & Hc & _); [intros item [] | exact Hrun |].
  exists o. split; [exact Ho|]. rewrite Hc. reflexivity.
Qed.

Lemma scanned_item_count_witness :
  exists o,
    current_order
      (fst (scan_product
              (fst (scan_product
                      (fst (scan_product (start_order noon till None) 1 2))
                      2 1))
              1 3))
    = Some o
    /\ item_count o = 6.
Proof.
  apply (scanned_item_count noon till None [(1, 2); (2, 1); (1, 3)] _).
  reflexivity.
Defined.

(** X5. After [start_order] and a run of successful scans, the order total
    is the sum over the scans of catalog price times quantity, and the
    store is the one the run started on. *)
Theorem scanned_total :
  forall now pos member scans pos',
    scan_all (start_order now pos member) scans = Some pos' ->
    exists o,
      current_order pos' = Some o
      /\ (total o == scan_value (db pos) scans)%Q
      /\ db pos' = db pos.
Proof.
  intros now pos member scans pos' Hrun.
  destruct (scan_all_accounts scans (start_order now pos member)
              (Order_new now EmptyString member) pos' eq_refl)
    as (o & Ho & Hdb & _ & _ & Ht); [intros item [] | exact Hrun |].
  exists o. split; [exact Ho|]. split; [|exact Hdb].
  rewrite Ht. simpl. unfold total, Py.sum. simpl. ring.
Qed.

Lemma scanned_total_witness :
  exists o,
    current_order
      (fst (scan_product
              (fst (scan_product
                      (fst (scan_product (start_order noon till None) 1 2))
                      2 1))
              1 3))
    = Some o
    /\ (total o == 39 # 2)%Q.
Proof.
  destruct (scanned_total noon till None [(1, 2); (2, 1); (1, 3)]
              (fst (scan_product
                      (fst (scan_product
                              (fst (scan_product (start_order noon till None)
                                      1 2))
                              2 1))
                      1 3)))
    as (o & Ho & Ht & _).
  - reflexivity.
  - exists o. split; [exact Ho|]. rewrite Ht. reflexivity.
Defined.

(** X6. [scan_product] never changes the store, and a scan that returns
    [False] leaves the till exactly as it was; the reason it gives is that
    no order is open, or that no active product has the identifier, or
    that the stock of the product, which it reports, is below the
    quantity. *)
Theorem failed_scan_changes_nothing :
  forall pos pid q,
    db (fst (scan_product pos pid q)) = db pos
    /\ (fst (snd (scan_product pos pid q)) = false ->
        fst (scan_product pos pid q) = pos
        /\ ((current_order pos = None
             /\ snd (snd (scan_product pos pid q)) = NoActiveOrder)
            \/ (get_product (db pos) pid = None
                /\ snd (snd (scan_product pos pid q)) = ProductNotFound pid)
            \/ (exists p, get_product (db pos) pid = Some p
                          /\ stock p < q
                          /\ snd (snd (scan_product pos pid q))
                             = InsufficientStock (stock p)))).
Proof.
  intros pos pid q. unfold scan_product.
  destruct (current_order pos) as [o|] eqn:Ho; simpl.
  - destruct (get_product (db pos) pid) as [p|] eqn:G; simpl.
    + destruct (stock p <? q) eqn:L; simpl.
      * split; [reflexivity|]. intros _. split; [reflexivity|].
        right. right. exists p. apply Z.ltb_lt in L. auto.
      * split; [reflexivity | discriminate].
    + split; [reflexivity|]. intros _. split; [reflexivity|]. auto.
  - split; [reflexivity|]. intros _. split; [reflexivity|]. auto.
Qed.

(** X7. With an order open, a run of scans succeeds as a whole exactly when
    each scan on its own names an active product whose stock covers that
    one quantity: what earlier scans put into the order plays no part. *)
Theorem scan_run_succeeds_iff :
  forall scans pos o,
    current_order pos = Some o ->
    ((exists pos', scan_all pos scans = Some pos')
     <-> Forall (scannable (db pos)) scans).
Proof.
  induction scans as [|[pid q] rest IH]; intros pos o Ho.
  - split; [constructor | intros _; exists pos; reflexivity].
  - simpl. split.
    + intros [pos' Hrun].
      destruct (scan_product pos pid q) as [pos1 [ok msg]] eqn:S.
      simpl in Hrun. destruct ok; [|discriminate].
      destruct (scan_product_true _ _ _ _ _ S)
        as (o0 & product & _ & G & Hq & ->).
      constructor; [exists product; auto|].
      apply (IH {| db := db pos;
                   current_order :=
                     Some (add_item o0 pid (name product) (price product) q) |}
                (add_item o0 pid (name product) (price product) q) eq_refl).
      exists pos'. exact Hrun.
    + intro F. inversion F as [|s l [p [G Hq]] Frest]; subst. simpl in G, Hq.
      rewrite (scan_product_accepts pos o pid q p Ho G Hq). simpl.
      apply (IH {| db := db pos;
                   current_order :=
                     Some (add_item o (id p) (name p) (price p) q) |}
                (add_item o (id p) (name p) (price p) q) eq_refl).
      exact Frest.
Qed.

Lemma scan_run_succeeds_iff_witness :
  (exists pos', scan_all (start_order noon till None) [(1, 60); (1, 60)]
                = Some pos')
  /\ ~ (exists pos', scan_all (start_order noon till None) [(1, 60); (3, 31)]
                     = Some pos').
Proof.
  split.
  - apply (scan_run_succeeds_iff [(1, 60); (1, 60)]
             (start_order noon till None) _ eq_refl).
    repeat constructor; (eexists; split; [reflexivity | simpl; lia]).
  - intro H.
    apply (scan_run_succeeds_iff [(1, 60); (3, 31)]
             (start_order noon till None) _ eq_refl) in H.
    inversion H as [|s l _ H2]; subst.
    inversion H2 as [|s l [p [G Hq]] _]; subst.
    simpl in G. injection G as <-. simpl in Hq. lia.
Defined.

(** X8. A product whose rows are all inactive cannot be scanned: the scan
    fails as "not found" and the till is unchanged. *)
Theorem inactive_product_not_scanned :
  forall pos o pid q,
    current_order pos = Some o ->
    (forall p, In p (products (db pos)) -> id p = pid -> active p = false) ->
    scan_product pos pid q = (pos, (false, ProductNotFound pid)).
Proof.
  intros pos o pid q Ho H. unfold scan_product. rewrite Ho.
  destruct (get_product (db pos) pid) as [p|] eqn:G; [|reflexivity].
  unfold get_product in G. apply find_some in G as [Hin K].
  apply andb_true_iff in K as [K1 K2]. apply Z.eqb_eq in K1.
  rewrite (H p Hin K1) in K2. discriminate.
Qed.

Lemma inactive_product_not_scanned_witness :
  scan_product
    (start_order noon
       {| db := set_products init_db
                  [set_stock coca_cola 100;
                   {| id := 9; name := "Lemonade"; price := 2%Q;
                      category := None; barcode := None; stock := 12;
                      min_stock := 0; active := false |}];
          current_order := None |}
       None)
    9 1
  = (start_order noon
       {| db := set_products init_db
                  [set_stock coca_cola 100;
                   {| id := 9; name := "Lemonade"; price := 2%Q;
                      category := None; barcode := None; stock := 12;
                      min_stock := 0; active := false |}];
          current_order := None |}
       None,
     (false, ProductNotFound 9)).
Proof.
  apply (inactive_product_not_scanned _ (Order_new noon EmptyString None)).
  - reflexivity.
  - intros p [<-|[<-|[]]]; simpl; [discriminate | reflexivity].
Defined.

(** ** Barcodes *)

Lemma find_unique_id (ps : list Product) p :
  NoDup (map id ps) -> In p ps -> active p = true ->
  find (fun x => (id x =? id p) && active x) ps = Some p.
Proof.
  induction ps as [|x rest IH]; intros ND Hin Ha; [destruct Hin|].
  inversion ND as [|y l Hnot ND']; subst. simpl.
  destruct Hin as [->|Hin].
  - rewrite Z.eqb_refl, Ha. reflexivity.
  - destruct (id x =? id p) eqn:E.
    + apply Z.eqb_eq in E. exfalso. apply Hnot. rewrite E.
      apply in_map. exact Hin.
    + simpl. apply IH; assumption.
Qed.

(** X9. With product identifiers unique in the catalog, a barcode that
    resolves is scanned as the very product that carries it, with the
    outcome [scan_product] gives for that product; a barcode that does not
    resolve fails as "barcode not found" and leaves the till unchanged,
    whether or not an order is open. *)
Theorem scan_barcode_resolves :
  forall pos code q,
    NoDup (map id (products (db pos))) ->
    (forall p, get_product_by_barcode (db pos) code = Some p ->
       barcode p = Some code
       /\ get_product (db pos) (id p) = Some p
       /\ scan_barcode pos code q = scan_product pos (id p) q)
    /\ (get_product_by_barcode (db pos) code = None ->
        scan_barcode pos code q = (pos, (false, BarcodeNotFound code))).
Proof.
  intros pos code q ND. split.
  - intros p G. unfold scan_barcode. rewrite G.
    unfold get_product_by_barcode in G. apply find_some in G as [Hin K].
    apply andb_true_iff in K as [Kb Ka].
    destruct (barcode p) as [b|] eqn:B; [|discriminate].
    apply String.eqb_eq in Kb. subst b.
    repeat split. unfold get_product. apply find_unique_id; assumption.
  - intro G. unfold scan_barcode. rewrite G. reflexivity.
Qed.

Lemma scan_barcode_resolves_witness :
  scan_barcode cart "6934567890123" 4 = scan_product cart 3 4
  /\ fst (snd (scan_barcode cart "6934567890123" 4)) = true
  /\ scan_barcode till "0000000000000" 1
     = (till, (false, BarcodeNotFound "0000000000000")).
Proof.
  assert (forall pos, db pos = init_db ->
                      NoDup (map id (products (db pos)))) as ND.
  { intros pos ->. simpl.
    repeat (constructor; [simpl; intuition discriminate|]). constructor. }
  split; [|split].
  - destruct (scan_barcode_resolves cart "6934567890123" 4 (ND cart eq_refl))
      as [H _].
    destruct (H _ eq_refl) as (_ & _ & E). exact E.
  - reflexivity.
  - destruct (scan_barcode_resolves till "0000000000000" 1 (ND till eq_refl))
      as [_ H].
    apply H. reflexivity.
Defined.

(** ** Cancelling and paying again *)

(** X10. [cancel_order] writes nothing to the store and leaves no order
    current; it returns [True] exactly when there was one, so a second
    cancel returns [False]; after it a scan fails with "No active order"
    and a payment with "No order to process". *)
Theorem cancel_discards_order :
  forall pos,
    db (fst (cancel_order pos)) = db pos
    /\ current_order (fst (cancel_order pos)) = None
    /\ (snd (cancel_order pos) = true <-> current_order pos <> None)
    /\ cancel_order (fst (cancel_order pos)) = (fst (cancel_order pos), false)
    /\ (forall pid q,
          scan_product (fst (cancel_order pos)) pid q
          = (fst (cancel_order pos), (false, NoActiveOrder)))
    /\ (forall method amount,
          process_payment (fst (cancel_order pos)) method amount
          = (fst (cancel_order pos), (false, NoOrderToProcess, 0%Q))).
Proof.
  intro pos. unfold cancel_order.
  destruct (current_order pos) as [o|] eqn:Ho; simpl.
  - repeat split; try reflexivity; try discriminate.
  - unfold scan_product, process_payment. rewrite Ho.
    repeat split; try reflexivity; try discriminate.
    intro H. exfalso. apply H. reflexivity.
Qed.

(** X11. An order is settled at most once: after a payment that succeeded,
    a further [process_payment], whatever the method and amount, fails with
    "No order to process" and changes neither the till nor the store. *)
Theorem payment_settles_once :
  forall pos method amount method' amount',
    fst (fst (snd (process_payment pos method amount))) = true ->
    process_payment (fst (process_payment pos method amount)) method' amount'
    = (fst (process_payment pos method amount),
       (false, NoOrderToProcess, 0%Q)).
Proof.
  intros pos method amount method' amount' Hok.
  assert (current_order (fst (process_payment pos method amount)) = None)
    as Hnone.
  { unfold process_payment in *.
    destruct (current_order pos) as [o|]; [|discriminate].
    destruct (Py.ltb amount (total o)); [discriminate|].
    destruct (negb (fst (save_order (db pos) (mark_paid o method))));
      [discriminate | reflexivity]. }
  unfold process_payment at 1. rewrite Hnone. reflexivity.
Qed.

Lemma payment_settles_once_witness :
  fst (fst (snd (process_payment cart "Cash" 11%Q))) = true
  /\ snd (process_payment (fst (process_payment cart "Cash" 11%Q)) "Card" 11%Q)
     = (false, NoOrderToProcess, 0%Q).
Proof.
  split; [reflexivity|].
  rewrite (payment_settles_once cart "Cash" 11%Q "Card" 11%Q eq_refl).
  reflexivity.
Defined.

(** ** Stock arithmetic *)





(** ** What [save_order] writes *)

Lemma fold_max_bound (xs : list Z) :
  forall a, a <= fold_left Z.max xs a
            /\ forall x, In x xs -> x <= fold_left Z.max xs a.
Proof.
  induction xs as [|y ys IH]; intro a; simpl.
  - split; [lia | intros x []].
  - destruct (IH (Z.max a y)) as [H1 H2]. split; [lia|].
    intros x [<-|Hx]; [lia | apply H2; exact Hx].
Qed.

Lemma next_rowid_above (rows : list OrderItemRow) :
  0 < next_rowid rows
  /\ forall r, In r rows -> oi_id r < next_rowid rows.
Proof.
  unfold next_rowid.
  destruct (fold_max_bound (map oi_id rows) 0) as [H1 H2].
  split; [lia|]. intros r Hr.
  specialize (H2 (oi_id r) (in_map oi_id rows r Hr)). lia.
Qed.

(** The loop of [save_order] appends one row per line, in order, each
    under the order identifier and with a rowid above all earlier ones. *)
Lemma save_items_rows oid its :
  forall rows d,
    exists new,
      fst (fold_left (save_item oid) its (rows, d)) = rows ++ new
      /\ map line_of_row new = its
      /\ Forall (fun r => oi_order_id r = oid) new
      /\ (NoDup (map oi_id rows) -> Forall (fun r => 0 < oi_id r) rows ->
          NoDup (map oi_id (rows ++ new))
          /\ Forall (fun r => 0 < oi_id r) (rows ++ new)).
Proof.
  induction its as [|item rest IH]; intros rows d.
  - exists []. simpl. rewrite app_nil_r. repeat split; auto.
  - simpl. unfold save_item at 2. simpl.
    destruct (IH (rows ++ [order_item_row rows oid item])
                 (snd (update_stock d (product_id item) (quantity item))))
      as (new & E & Hl & Ho & Hid).
    exists (order_item_row rows oid item :: new).
    rewrite E, <- app_assoc. simpl.
    split; [reflexivity|]. split; [rewrite Hl; destruct item; reflexivity|].
    split; [constructor; [reflexivity | exact Ho]|].
    intros ND Pos. rewrite <- app_assoc in Hid. simpl in Hid. apply Hid.
    + rewrite map_app. simpl. apply NoDup_app. repeat split; auto.
      * constructor; [simpl; tauto | constructor].
      * intros a Ha [<-|[]]. apply in_map_iff in Ha as (r & Er & Hr).
        destruct (next_rowid_above rows) as [_ H]. specialize (H r Hr). lia.
    + apply Forall_app. split; [exact Pos|]. constructor; [|constructor].
      simpl. apply (next_rowid_above rows).
Qed.

(** What holds after [save_order] returned [True]. *)
Lemma save_order_committed d order d' :
  save_order d order = (true, d') ->
  write_locked d = false
  /\ fresh_id d (order_id order)
  /\ orders d' = orders d ++ [order_row order]
  /\ order_items d'
     = fst (fold_left (save_item (order_id order)) (items order)
              (order_items d, set_write_locked d true))
  /\ products d' = products d
  /\ write_locked d' = false
  /\ members d' =
       match member_id order with
       | Some mid =>
           if Py.truthy (member_id order)
           then map (accrue mid (total order)) (members d)
           else members d
       | None => members d
       end.
Proof.
  unfold save_order. destruct (write_locked d) eqn:L; [discriminate|].
  destruct (existsb _ (orders d)) eqn:X; [discriminate|].
  intro H. injection H as <-. simpl.
  rewrite save_items_locked by reflexivity. simpl.
  repeat split; auto.
  intros r Hr E.
  assert (existsb (fun r => (o_order_id r =? order_id order)%string)
                  (orders d) = true) as K.
  { apply existsb_exists. exists r. split; [exact Hr|].
    apply String.eqb_eq. exact E. }
  rewrite K in X. discriminate.
Qed.

Lemma filter_order_id_all oid (rows : list OrderItemRow) :
  Forall (fun r => oi_order_id r = oid) rows ->
  filter (fun r => (oi_order_id r =? oid)%string) rows = rows.
Proof.
  induction 1 as [|r rows Hr _ IH]; simpl; [reflexivity|].
  rewrite Hr, String.eqb_refl, IH. reflexivity.
Qed.

Lemma filter_order_id_none oid (rows : list OrderItemRow) :
  (forall r, In r rows -> oi_order_id r <> oid) ->
  filter (fun r => (oi_order_id r =? oid)%string) rows = [].
Proof.
  induction rows as [|r rows IH]; intro H; simpl; [reflexivity|].
  destruct (String.eqb_spec (oi_order_id r) oid) as [E|E].
  - exfalso. apply (H r); [left; reflexivity | exact E].
  - apply IH. intros x Hx. apply H. right. exact Hx.
Qed.

(** X13. A committed [save_order] appends to [order_items] one row per line
    of the order, in the order of the lines, each under the order
    identifier and carrying the line's product, name, unit price, quantity
    and discount; when no earlier item row has that identifier, reading the
    rows back by it gives the lines of the order. *)
Theorem save_order_records_items :
  forall d order d',
    save_order d order = (true, d') ->
    exists new,
      order_items d' = order_items d ++ new
      /\ map line_of_row new = items order
      /\ Forall (fun r => oi_order_id r = order_id order) new
      /\ ((forall r, In r (order_items d) ->
                     oi_order_id r <> order_id order) ->
          map line_of_row (item_rows_of d' (order_id order)) = items order).
Proof.
  intros d order d' H.
  destruct (save_order_committed _ _ _ H) as (_ & _ & _ & Hit & _).
  destruct (save_items_rows (order_id order) (items order) (order_items d)
              (set_write_locked d true))
    as (new & E & Hl & Ho & _).
  exists new. rewrite Hit, E. repeat split; auto.
  intro Hnone. unfold item_rows_of. rewrite Hit, E, filter_app.
  rewrite (filter_order_id_none _ _ Hnone), (filter_order_id_all _ _ Ho).
  exact Hl.
Qed.

Lemma save_order_records_items_witness :
  exists d',
    save_order init_db cart_order = (true, d')
    /\ map line_of_row (item_rows_of d' (order_id cart_order))
       = items cart_order.
Proof.
  destruct (save_order_records_items init_db cart_order
              (snd (save_order init_db cart_order)) eq_refl)
    as (new & _ & _ & _ & Hback).
  exists (snd (save_order init_db cart_order)).
  split; [reflexivity|]. apply Hback. intros r [].
Defined.

(** X14. A committed [save_order] neither adds nor removes a member and
    touches no member but the one the order names: every other identifier
    looks up as before, and an order without a member reference ([None] or
    the empty string) leaves the table as it was. *)
Theorem accrual_touches_one_member :
  forall d order d',
    save_order d order = (true, d') ->
    map m_member_id (members d') = map m_member_id (members d)
    /\ (forall other, member_id order <> Some other ->
          get_member d' other = get_member d other)
    /\ (Py.truthy (member_id order) = false -> members d' = members d).
Proof.
  intros d order d' H.
  destruct (save_order_committed _ _ _ H) as (_ & _ & _ & _ & _ & _ & Hm).
  unfold get_member. rewrite Hm. clear Hm H.
  destruct (member_id order) as [mid|] eqn:M; [|repeat split; auto].
  destruct (Py.truthy (Some mid)) eqn:T; [|repeat split; auto].
  split; [|split; [|discriminate]].
  - rewrite map_map. apply map_ext. intro m. apply accrue_member_id.
  - intros other Hne.
    induction (members d) as [|m ms IH]; simpl; [reflexivity|].
    rewrite accrue_member_id.
    destruct (String.eqb_spec (m_member_id m) other) as [E|E]; [|exact IH].
    unfold accrue. destruct (String.eqb_spec (m_member_id m) mid) as [E'|E'];
      [|reflexivity].
    exfalso. apply Hne. congruence.
Qed.

Lemma accrual_touches_one_member_witness :
  exists d',
    save_order init_db
      (add_item (Order_new noon EmptyString (Some "M001")) 1
         "Coca Cola 330ml" 3%Q 3)
    = (true, d')
    /\ get_member d' "M002" = get_member init_db "M002"
    /\ get_member d' "M001" <> get_member init_db "M001".
Proof.
  eexists. split; [reflexivity|]. split.
  - apply (accrual_touches_one_member init_db
             (add_item (Order_new noon EmptyString (Some "M001")) 1
                "Coca Cola 330ml" 3%Q 3) _ eq_refl).
    discriminate.
  - discriminate.
Defined.

(** ** Invariants of the ledger *)

Lemma row_subtotal_line (rows : list OrderItemRow) :
  map row_subtotal rows = map subtotal (map line_of_row rows).
Proof.
  rewrite map_map. reflexivity.
Qed.

(** [save_order] of an order marked "Paid" keeps the ledger consistent,
    whether it commits or fails. *)
Lemma save_order_consistent d order :
  ledger_consistent d -> payment_status order = "Paid" ->
  ledger_consistent (snd (save_order d order)).
Proof.
  intros [U FK [RN RP] PD TT] Hpaid.
  destruct (save_order d order) as [ok d'] eqn:S. destruct ok.
  2:{ assert (fst (save_order d order) = false) as F by (rewrite S; reflexivity).
      rewrite (save_order_false _ _ F) in S. injection S as <-. simpl.
      constructor; auto. }
  simpl. destruct (save_order_committed _ _ _ S)
    as (_ & Fresh & Ho & Hit & _).
  destruct (save_items_rows (order_id order) (items order) (order_items d)
              (set_write_locked d true))
    as (new & E & Hl & Hoid & Hids).
  rewrite E in Hit.
  assert (~ In (order_id order) (map o_order_id (orders d))) as NotIn.
  { intro K. apply in_map_iff in K as (r & Er & Hr). exact (Fresh r Hr Er). }
  assert (forall r, In r (order_items d) -> oi_order_id r <> order_id order)
    as NoRows.
  { intros r Hr K. apply NotIn. rewrite <- K. apply FK. exact Hr. }
  constructor.
  - rewrite Ho, map_app. simpl. apply NoDup_app. repeat split; auto.
    + constructor; [simpl; tauto | constructor].
    + intros a Ha [<-|[]]. contradiction.
  - intros r Hr. rewrite Hit in Hr. rewrite Ho, map_app.
    apply in_or_app. apply in_app_or in Hr as [Hr|Hr].
    + left. apply FK. exact Hr.
    + right. simpl. left.
      rewrite Forall_forall in Hoid. symmetry. apply Hoid. exact Hr.
  - rewrite Hit. apply Hids; assumption.
  - rewrite Ho. apply Forall_app. split; [exact PD|].
    constructor; [exact Hpaid | constructor].
  - intros r Hr. rewrite Ho in Hr. unfold item_rows_of. rewrite Hit, filter_app.
    apply in_app_or in Hr as [Hr|[<-|[]]].
    + assert (o_order_id r <> order_id order) as Hne.
      { intro K. apply NotIn. rewrite <- K. apply in_map. exact Hr. }
      rewrite (filter_order_id_none (o_order_id r) new).
      * rewrite app_nil_r. apply TT. exact Hr.
      * intros x Hx K. rewrite Forall_forall in Hoid.
        rewrite (Hoid x Hx) in K. congruence.
    + simpl. rewrite (filter_order_id_none _ _ NoRows).
      rewrite (filter_order_id_all _ _ Hoid). simpl.
      rewrite row_subtotal_line, Hl. apply Qeq_refl.
Qed.

Lemma scan_product_db pos pid q : db (fst (scan_product pos pid q)) = db pos.
Proof.
  unfold scan_product. destruct (current_order pos); [|reflexivity].
  destruct (get_product (db pos) pid) as [p|]; [|reflexivity].
  destruct (stock p <? q); reflexivity.
Qed.

Lemma scan_barcode_db pos code q :
  db (fst (scan_barcode pos code q)) = db pos.
Proof.
  unfold scan_barcode.
  destruct (get_product_by_barcode (db pos) code);
    [apply scan_product_db | reflexivity].
Qed.

(** A call changes the store only by a [save_order] of an order marked
    "Paid". *)
Lemma exec_db pos c :
  db (exec pos c) = db pos
  \/ exists order,
       payment_status order = "Paid"
       /\ db (exec pos c) = snd (save_order (db pos) order).
Proof.
  destruct c as [now member|pid q|code q|method amount|]; simpl.
  - left. reflexivity.
  - left. apply scan_product_db.
  - left. apply scan_barcode_db.
  - unfold process_payment. destruct (current_order pos) as [o|];
      [|left; reflexivity].
    destruct (Py.ltb amount (total o)); [left; reflexivity|].
    right. exists (mark_paid o method). split; [reflexivity|].
    destruct (negb (fst (save_order (db pos) (mark_paid o method))));
      reflexivity.
  - left. unfold cancel_order. destruct (current_order pos); reflexivity.
Qed.

Lemma run_db_invariant (I : Database -> Prop) :
  (forall d order, I d -> payment_status order = "Paid" ->
                   I (snd (save_order d order))) ->
  forall cs pos, I (db pos) -> I (db (run pos cs)).
Proof.
  intros Hsave. unfold run.
  induction cs as [|c cs IH]; intros pos Hi; simpl; [exact Hi|].
  apply IH. destruct (exec_db pos c) as [->|(order & Hp & ->)];
    [exact Hi | apply Hsave; assumption].
Qed.

(** X15. Every sequence of calls keeps the ledger consistent: order
    identifiers stay unique, every item row belongs to a committed order,
    item rowids stay unique and positive, every committed order is "Paid",
    and the total stored with each order is the sum of unit price times
    quantity minus discount over its item rows. *)
Theorem ledger_stays_consistent :
  forall pos cs,
    ledger_consistent (db pos) ->
    ledger_consistent (db (run pos cs)).
Proof.
  intros pos cs H.
  apply (run_db_invariant ledger_consistent); [|exact H].
  intros d order. apply save_order_consistent.
Qed.

Lemma ledger_stays_consistent_witness :
  ledger_consistent
    (db (run till
           [StartOrder noon (Some "M001"); ScanProduct 1 2;
            ScanBarcode "6923456789012" 1; ProcessPayment "Card" 11%Q;
            StartOrder noon None; ProcessPayment "Cash" 0%Q]))
  /\ List.length
       (orders
          (db (run till
                 [StartOrder noon (Some "M001"); ScanProduct 1 2;
                  ScanBarcode "6923456789012" 1; ProcessPayment "Card" 11%Q;
                  StartOrder noon None; ProcessPayment "Cash" 0%Q])))
     = 1%nat.
Proof.
  split; [|reflexivity].
  apply (ledger_stays_consistent till). constructor; simpl.
  - constructor.
  - intros r [].
  - split; constructor.
  - constructor.
  - intros r [].
Defined.


(** X17. No sequence of calls changes the [products] table: scans only read
    the stock, and at settlement every [update_stock] runs on a second
    connection while [save_order] holds the write lock, fails, and is
    ignored.  In particular the stock after a successful payment is the
    stock before. *)
Theorem engine_never_writes_stock :
  forall pos cs,
    products (db (run pos cs)) = products (db pos)
    /\ forall method amount,
         products (db (fst (process_payment pos method amount)))
         = products (db pos).
Proof.
  intros pos cs. split.
  - apply (run_db_invariant (fun d => products d = products (db pos)));
      [|reflexivity].
    intros d order H _. rewrite save_order_keeps_stock. exact H.
  - intros method amount.
    destruct (exec_db pos (ProcessPayment method amount))
      as [E|(order & _ & E)]; simpl in E; rewrite E;
      [reflexivity | apply save_order_keeps_stock].
Qed.

(** ** Invariants of the current order *)

Lemma add_item_discount o pid pname uprice q :
  Forall (fun item => discount item = 0%Q) (items o) ->
  Forall (fun item => discount item = 0%Q)
         (items (add_item o pid pname uprice q)).
Proof.
  intro H. rewrite Forall_forall in *. unfold add_item.
  destruct (add_item_merge (items o) pid q) as [its|] eqn:M; simpl.
  - intros item Hin.
    destruct (add_item_merge_in _ _ _ _ _ M Hin) as [K|(old & K & ->)];
      [apply H; exact K | simpl; apply H; exact K].
  - intros item Hin. apply in_app_or in Hin as [K|[<-|[]]];
      [apply H; exact K | reflexivity].
Qed.

Lemma scan_product_well_formed pos pid q :
  order_well_formed pos -> order_well_formed (fst (scan_product pos pid q)).
Proof.
  intro W. unfold scan_product.
  destruct (current_order pos) as [o|] eqn:Ho; [|exact W].
  destruct (get_product (db pos) pid) as [p|]; [|exact W].
  destruct (stock p <? q); [exact W|].
  intros o' H. simpl in H. injection H as <-.
  destruct (W o Ho) as [ND D]. split.
  - apply add_item_ids. exact ND.
  - apply add_item_discount. exact D.
Qed.

(** X18. Whatever calls are made on a till that starts without an order or
    with a well-formed one, the current order never has two lines for one
    product and never carries a discount. *)
Theorem current_order_stays_well_formed :
  forall pos cs,
    order_well_formed pos ->
    order_well_formed (run pos cs).
Proof.
  intros pos cs. unfold run. revert pos.
  induction cs as [|c cs IH]; intros pos W; simpl; [exact W|].
  apply IH. destruct c as [now member|pid q|code q|method amount|]; simpl.
  - intros o H. injection H as <-. simpl. split; constructor.
  - apply scan_product_well_formed. exact W.
  - unfold scan_barcode.
    destruct (get_product_by_barcode (db pos) code);
      [apply scan_product_well_formed |]; exact W.
  - unfold process_payment. destruct (current_order pos) as [o|] eqn:Ho;
      [|exact W].
    destruct (Py.ltb amount (total o)); [exact W|].
    destruct (negb (fst (save_order (db pos) (mark_paid o method))));
      intros o' H; simpl in H; [|discriminate].
    injection H as <-. simpl. apply W. exact Ho.
  - unfold cancel_order. destruct (current_order pos) eqn:Ho; [|exact W].
    intros o' H. discriminate.
Qed.

Lemma current_order_stays_well_formed_witness :
  order_well_formed
    (run till [StartOrder noon None; ScanProduct 1 2; ScanProduct 2 1;
               ScanBarcode "6901234567890" 5; ProcessPayment "Cash" 1%Q])
  /\ option_map (fun o => map quantity (items o))
       (current_order
          (run till [StartOrder noon None; ScanProduct 1 2; ScanProduct 2 1;
                     ScanBarcode "6901234567890" 5;
                     ProcessPayment "Cash" 1%Q]))
     = Some [7; 1].
Proof.
  split; [|reflexivity].
  apply (current_order_stays_well_formed till). intros o H. discriminate.
Defined.

(** ** The daily summary, with orders *)

Lemma daily_sales_fields now d date :
  order_count (get_daily_sales now d date)
  = Z.of_nat
      (List.length
         (filter (fun r => (Sql.date (o_created_at r)
                            =? report_date now date)%string) (orders d)))
  /\ (total_sales (get_daily_sales now d date)
      == Py.sum
           (map total_amount
              (filter (fun r => (Sql.date (o_created_at r)
                                 =? report_date now date)%string)
                      (orders d))))%Q.
Proof.
  unfold get_daily_sales.
  destruct (filter _ (orders d)) as [|r rows] eqn:F.
  - simpl. split; [reflexivity | apply Qeq_refl].
  - destruct (Z.of_nat (List.length (r :: rows)) =? 0) eqn:Z0.
    + apply Z.eqb_eq in Z0. simpl List.length in Z0. lia.
    + simpl negb. cbv iota. simpl order_count. simpl total_sales.
      split; [reflexivity | apply Qeq_refl].
Qed.

(** X19. A committed order shows in the summary of its creation date: the
    order count goes up by one and the total sales by the order total; the
    summary of every other date is what it was. *)
Theorem settled_order_in_daily_sales :
  forall now d order d' date,
    save_order d order = (true, d') ->
    (report_date now date = Sql.date (created_at order) ->
     order_count (get_daily_sales now d' date)
     = order_count (get_daily_sales now d date) + 1
     /\ (total_sales (get_daily_sales now d' date)
         == total_sales (get_daily_sales now d date) + total order)%Q)
    /\ (report_date now date <> Sql.date (created_at order) ->
        get_daily_sales now d' date = get_daily_sales now d date).
Proof.
  intros now d order d' date S.
  pose proof (save_order_true _ _ _ S) as Ho. split.
  - intro E.
    destruct (daily_sales_fields now d' date) as [C' T'].
    destruct (daily_sales_fields now d date) as [C T].
    rewrite C', T', C, T, Ho, filter_app. simpl.
    rewrite <- E, String.eqb_refl. split.
    + rewrite length_app. simpl. lia.
    + rewrite map_app, sum_app. simpl. rewrite sum_cons.
      change (Py.sum []) with 0%Q. ring.
  - intro Hne. unfold get_daily_sales. rewrite Ho, filter_app. simpl.
    destruct (String.eqb_spec (Sql.date (created_at order))
                (report_date now date)) as [K|K]; [congruence|].
    rewrite app_nil_r. reflexivity.
Qed.

Lemma settled_order_in_daily_sales_witness :
  order_count
    (get_daily_sales noon (snd (save_order init_db cart_order)) None) = 1
  /\ (total_sales
        (get_daily_sales noon (snd (save_order init_db cart_order)) None)
      == 21 # 2)%Q
  /\ get_daily_sales noon (snd (save_order init_db cart_order))
       (Some "2025-03-13")
     = get_daily_sales noon init_db (Some "2025-03-13").
Proof.
  destruct (settled_order_in_daily_sales noon init_db cart_order
              (snd (save_order init_db cart_order)) None eq_refl)
    as [Hsame _].
  destruct (settled_order_in_daily_sales noon init_db cart_order
              (snd (save_order init_db cart_order)) (Some "2025-03-13")
              eq_refl)
    as [_ Hother].
  destruct (Hsame eq_refl) as [C T].
  split; [rewrite C; reflexivity|]. split; [rewrite T; reflexivity|].
  apply Hother. discriminate.
Defined.

(** X20. In every daily summary the count is not negative, it is zero
    exactly when no order has the date, and the average times the count is
    the total. *)
Theorem daily_sales_average :
  forall now d date,
    0 <= order_count (get_daily_sales now d date)
    /\ (order_count (get_daily_sales now d date) = 0 <->
        forall r, In r (orders d) ->
                  Sql.date (o_created_at r) <> report_date now date)
    /\ (avg_order (get_daily_sales now d date)
        * inject_Z (order_count (get_daily_sales now d date))
        == total_sales (get_daily_sales now d date))%Q.
Proof.
  intros now d date.
  destruct (daily_sales_fields now d date) as [C _].
  split; [rewrite C; lia|]. split.
  - rewrite C. split.
    + intros H r Hr E.
      assert (In r (filter (fun r => (Sql.date (o_created_at r)
                                      =? report_date now date)%string)
                           (orders d))) as K.
      { apply filter_In. split; [exact Hr|]. apply String.eqb_eq. exact E. }
      destruct (filter _ (orders d)); [destruct K | simpl in H; lia].
    + intro H.
      destruct (filter (fun r => (Sql.date (o_created_at r)
                                  =? report_date now date)%string)
                       (orders d)) as [|r rows] eqn:F; [reflexivity|].
      exfalso.
      assert (In r (filter (fun r => (Sql.date (o_created_at r)
                                      =? report_date now date)%string)
                           (orders d))) as K by (rewrite F; left; reflexivity).
      apply filter_In in K as [Hr E]. apply String.eqb_eq in E.
      exact (H r Hr E).
  - unfold get_daily_sales.
    destruct (Z.of_nat (List.length
                (filter (fun r => (Sql.date (o_created_at r)
                                   =? report_date now date)%string)
                        (orders d))) =? 0) eqn:Z0; simpl.
    + ring.
    + apply Z.eqb_neq in Z0. field.
      intro K. apply Z0. unfold Qeq in K. simpl in K. lia.
Qed.

(** X21. The timestamp [start_order] writes and the date a report asks for
    agree: [DATE] of the creation time of an order started at a clock
    reading is the default report date at that reading, a text of ten
    characters. *)
Theorem report_date_matches_created_at :
  forall now pos member,
    (exists o, current_order (start_order now pos member) = Some o
               /\ Sql.date (created_at o) = report_date now None)
    /\ String.length (report_date now None) = 10%nat
    /\ report_date now (Some EmptyString) = report_date now None.
Proof.
  intros now pos member. split; [|split]; [|reflexivity|reflexivity].
  eexists. split; reflexivity.
Qed.

(** ** The receipt *)

Lemma substring_length n :
  forall s, (String.length (substring 0 n s) <= n)%nat.
Proof.
  induction n as [|n IH]; intros [|c s]; simpl; try lia.
  specialize (IH s). lia.
Qed.

(** X22. The receipt of a successful payment is the one of the order that
    was current: its identifier and creation time, one line per order line
    with that line's quantity, unit price and subtotal and a name of at
    most 20 characters, the order total, and the payment method just
    chosen; the change returned is the amount less that total. *)
Theorem receipt_reflects_order :
  forall pos method amount,
    fst (fst (snd (process_payment pos method amount))) = true ->
    exists o lines,
      current_order pos = Some o
      /\ snd (fst (snd (process_payment pos method amount)))
         = Receipt (order_id o) (created_at o) lines (total o) method
      /\ map r_quantity lines = map quantity (items o)
      /\ map r_unit_price lines = map unit_price (items o)
      /\ map r_subtotal lines = map subtotal (items o)
      /\ Forall (fun l => (String.length (r_name l) <= 20)%nat) lines
      /\ (snd (snd (process_payment pos method amount))
          == amount - total o)%Q.
Proof.
  intros pos method amount. unfold process_payment.
  destruct (current_order pos) as [o|]; [|discriminate].
  destruct (Py.ltb amount (total o)); [discriminate|].
  destruct (negb (fst (save_order (db pos) (mark_paid o method))));
    [discriminate|].
  intros _. simpl. eexists. eexists. split; [reflexivity|].
  split; [reflexivity|]. rewrite !map_map. simpl.
  repeat split; try reflexivity.
  apply Forall_forall. intros l Hl. apply in_map_iff in Hl as (item & <- & _).
  simpl. apply substring_length.
Qed.

Lemma receipt_reflects_order_witness :
  exists lines,
    snd (fst (snd (process_payment cart "Card" 11%Q)))
    = Receipt (order_id cart_order) (created_at cart_order) lines
        (total cart_order) "Card"
    /\ map r_quantity lines = [2; 1]
    /\ (snd (snd (process_payment cart "Card" 11%Q)) == 1 # 2)%Q.
Proof.
  destruct (receipt_reflects_order cart "Card" 11%Q eq_refl)
    as (o & lines & Ho & R & Q1 & _ & _ & _ & Ch).
  injection Ho as <-. exists lines.
  split; [exact R|]. split; [exact Q1|]. rewrite Ch. reflexivity.
Defined.

(** ** Wildcards in the search keyword *)

Lemma like_percent_step pat s :
  Sql.like (String Sql.percent pat) s
  = Sql.like pat s
    || match s with
       | EmptyString => false
       | String _ s' => Sql.like (String Sql.percent pat) s'
       end.
Proof.
  destruct s; reflexivity.
Qed.

Lemma like_all_percent pat :
  all_percent pat = true -> pat <> EmptyString ->
  forall s, Sql.like pat s = true.
Proof.
  induction pat as [|p pat IH]; intros A Hne s; [congruence|].
  simpl in A. apply andb_true_iff in A as [Ap A].
  apply Ascii.eqb_eq in Ap. subst p.
  destruct pat as [|p' pat'].
  - apply like_percent_all.
  - rewrite like_percent_step, IH; [reflexivity | exact A | discriminate].
Qed.

Lemma all_percent_app a b :
  all_percent a = true -> all_percent b = true ->
  all_percent (a ++ b) = true.
Proof.
  induction a as [|c a IH]; simpl; intros Ha Hb; [exact Hb|].
  apply andb_true_iff in Ha as [Hc Ha]. rewrite Hc. simpl. auto.
Qed.

(** X23. A keyword made of [%] characters only is no filter at all:
    [search_products] returns every active product, as it does for the
    empty keyword. *)
Theorem search_percent_matches_all :
  forall d keyword,
    all_percent keyword = true ->
    search_products d keyword = filter active (products d).
Proof.
  intros d keyword A. unfold search_products.
  destruct (negb (keyword =? EmptyString)%string); [|reflexivity].
  apply filter_ext. intro p.
  rewrite like_all_percent; [reflexivity | | discriminate].
  change ("%" ++ keyword ++ "%")%string
    with (String Sql.percent (keyword ++ "%")).
  simpl. apply all_percent_app; [exact A | reflexivity].
Qed.

Lemma search_percent_matches_all_witness :
  map id (search_products init_db "%%") = [1; 2; 3; 4; 5].
Proof.
  rewrite (search_percent_matches_all init_db "%%" eq_refl). reflexivity.
Defined.

(** ** Start-up *)

(** X24. When [init_sample_data] completes it leaves the ledger alone, and
    running it again changes nothing: a store that has products is
    returned as it is, an empty catalog gets the five sample products and
    the two sample members after the members already there. *)
Theorem init_sample_data_once :
  forall d d',
    init_sample_data d = Some d' ->
    init_sample_data d' = Some d'
    /\ orders d' = orders d
    /\ order_items d' = order_items d
    /\ (products d <> [] -> d' = d)
    /\ (products d = [] ->
        products d' = sample_products
        /\ members d' = members d ++ sample_members).
Proof.
  intros d d'. unfold init_sample_data at 1.
  destruct (products d) as [|p ps] eqn:P; simpl.
  - destruct (write_locked d); [discriminate|].
    destruct (existsb _ (members d)); [discriminate|].
    intro H. injection H as <-. repeat split; try reflexivity.
    intro K. congruence.
  - destruct (Z.of_nat (S (List.length ps)) =? 0) eqn:Z0;
      [apply Z.eqb_eq in Z0; lia|].
    intro H. injection H as <-.
    split; [|repeat split; auto; discriminate].
    unfold init_sample_data. rewrite P. simpl List.length. rewrite Z0.
    reflexivity.
Qed.

Lemma init_sample_data_once_witness :
  init_sample_data
    {| products := []; orders := []; order_items := []; members := [];
       write_locked := false |}
  = Some init_db
  /\ init_sample_data init_db = Some init_db.
Proof.
  split; [reflexivity|].
  apply (init_sample_data_once
           {| products := []; orders := []; order_items := [];
              members := []; write_locked := false |} init_db eq_refl).
Defined.

(** ** Order identifiers *)

Lemma digit_inj a b : Py.digit a = Py.digit b -> (a mod 10 = b mod 10)%nat.
Proof.
  unfold Py.digit. intro H. apply (f_equal nat_of_ascii) in H.
  assert (a mod 10 < 10)%nat by (apply Nat.mod_upper_bound; lia).
  assert (b mod 10 < 10)%nat by (apply Nat.mod_upper_bound; lia).
  rewrite !nat_ascii_embedding in H by lia. lia.
Qed.

Lemma two_digits a b :
  (a < 100 -> b < 100 ->
   (a / 10) mod 10 = (b / 10) mod 10 -> a mod 10 = b mod 10 -> a = b)%nat.
Proof.
  intros Ha Hb H1 H2.
  assert (a / 10 < 10)%nat by (apply Nat.Div0.div_lt_upper_bound; lia).
  assert (b / 10 < 10)%nat by (apply Nat.Div0.div_lt_upper_bound; lia).
  rewrite !Nat.mod_small in H1 by assumption.
  rewrite (Nat.div_mod_eq a 10), (Nat.div_mod_eq b 10). lia.
Qed.

Lemma four_digits a b :
  (a < 100 * 100 -> b < 100 * 100 ->
   (a / 1000) mod 10 = (b / 1000) mod 10 ->
   (a / 100) mod 10 = (b / 100) mod 10 ->
   (a / 10) mod 10 = (b / 10) mod 10 ->
   a mod 10 = b mod 10 -> a = b)%nat.
Proof.
  intros Ha Hb H3 H2 H1 H0.
  assert (forall n, n / 10 / 10 = n / 100 /\ n / 100 / 10 = n / 1000)%nat as D
    by (intro n; rewrite !Nat.Div0.div_div; split; reflexivity).
  pose proof (Nat.div_mod_eq a 10) as A0.
  pose proof (Nat.div_mod_eq (a / 10) 10) as A1.
  pose proof (Nat.div_mod_eq (a / 100) 10) as A2.
  pose proof (Nat.div_mod_eq b 10) as B0.
  pose proof (Nat.div_mod_eq (b / 10) 10) as B1.
  pose proof (Nat.div_mod_eq (b / 100) 10) as B2.
  destruct (D a) as [Da1 Da2]. destruct (D b) as [Db1 Db2].
  rewrite Da1 in A1. rewrite Da2 in A2. rewrite Db1 in B1. rewrite Db2 in B2.
  assert (a / 1000 < 10)%nat by (apply Nat.Div0.div_lt_upper_bound; lia).
  assert (b / 1000 < 10)%nat by (apply Nat.Div0.div_lt_upper_bound; lia).
  rewrite !Nat.mod_small in H3 by assumption.
  lia.
Qed.

(** X25. Order identifiers are "ORD" and fourteen digits, and they tell
    clock readings apart to the second: two orders get the same generated
    identifier exactly when they were started at the same reading of a
    valid clock, whoever the members are. *)
Theorem order_id_per_second :
  forall t1 t2 m1 m2,
    clock_valid t1 -> clock_valid t2 ->
    (order_id (Order_new t1 EmptyString m1)
     = order_id (Order_new t2 EmptyString m2)
     <-> t1 = t2)
    /\ String.length (order_id (Order_new t1 EmptyString m1)) = 17%nat
    /\ substring 0 3 (order_id (Order_new t1 EmptyString m1)) = "ORD".
Proof.
  intros [y1 mo1 d1 h1 mi1 s1] [y2 mo2 d2 h2 mi2 s2] m1 m2 V1 V2.
  unfold clock_valid in V1, V2. simpl in V1, V2.
  destruct V1 as (Vy1 & Vmo1 & Vd1 & Vh1 & Vmi1 & Vs1).
  destruct V2 as (Vy2 & Vmo2 & Vd2 & Vh2 & Vmi2 & Vs2).
  split; [|split; reflexivity]. split; [|intro E; injection E; intros; subst; reflexivity].
  unfold Order_new, Py.strftime_compact, Py.pad4, Py.pad2.
  cbn [order_id String.eqb append Py.year Py.month Py.day Py.hour Py.minute
       Py.second].
  intro E. injection E as Y3 Y2 Y1 Y0 MO1 MO0 D1 D0 H1 H0 MI1 MI0 S1 S0.
  apply digit_inj in Y3, Y2, Y1, Y0, MO1, MO0, D1, D0, H1, H0, MI1, MI0, S1, S0.
  rewrite (four_digits y1 y2 Vy1 Vy2 Y3 Y2 Y1 Y0).
  rewrite (two_digits mo1 mo2 Vmo1 Vmo2 MO1 MO0).
  rewrite (two_digits d1 d2 Vd1 Vd2 D1 D0).
  rewrite (two_digits h1 h2 Vh1 Vh2 H1 H0).
  rewrite (two_digits mi1 mi2 Vmi1 Vmi2 MI1 MI0).
  rewrite (two_digits s1 s2 Vs1 Vs2 S1 S0).
  reflexivity.
Qed.

Lemma order_id_per_second_witness :
  order_id (Order_new noon EmptyString (Some "M001"))
  = order_id (Order_new noon EmptyString None)
  /\ order_id (Order_new noon EmptyString None) = "ORD20250314120000"
  /\ order_id (Order_new noon EmptyString None)
     <> order_id
          (Order_new
             {| Py.year := 2025; Py.month := 3; Py.day := 14;
                Py.hour := 12; Py.minute := 0; Py.second := 1 |}
             EmptyString None).
Proof.
  assert (clock_valid noon) as V
    by (unfold clock_valid; simpl; repeat split; lia).
  assert (clock_valid
            {| Py.year := 2025; Py.month := 3; Py.day := 14;
               Py.hour := 12; Py.minute := 0; Py.second := 1 |}) as V'
    by (unfold clock_valid; simpl; repeat split; lia).
  split; [|split].
  - apply (order_id_per_second noon noon (Some "M001") None V V). reflexivity.
  - reflexivity.
  - intro E.
    apply (order_id_per_second noon _ None None V V') in E. discriminate.
Defined.

(** ** Outcomes of [process_payment] *)








(** ** Search and lookup *)

(** X29. With product identifiers unique in the catalog, every product a
    search returns can be looked up by its identifier, which gives that very
    product, and it is among the products the empty keyword lists. *)
Theorem search_results_resolve :
  forall d keyword p,
    NoDup (map id (products d)) ->
    In p (search_products d keyword) ->
    get_product d (id p) = Some p
    /\ In p (search_products d EmptyString).
Proof.
  intros d keyword p ND Hin.
  assert (In p (products d) /\ active p = true) as [Hp Ha].
  { unfold search_products in Hin.
    destruct (negb (keyword =? EmptyString)%string);
      apply filter_In in Hin as [Hp H]; split; auto.
    apply andb_true_iff in H as [_ H]. exact H. }
  split.
  - unfold get_product. apply find_unique_id; assumption.
  - simpl. apply filter_In. auto.
Qed.

Lemma search_results_resolve_witness :
  map id (search_products init_db "oo") = [2; 4; 5]
  /\ Forall (fun p => get_product init_db (id p) = Some p)
            (search_products init_db "oo").
Proof.
  split; [reflexivity|]. apply Forall_forall. intros p Hp.
  apply (search_results_resolve init_db "oo" p); [|exact Hp].
  simpl. repeat (constructor; [simpl; intuition discriminate|]). constructor.
Defined.

Lemma ci_eqb_refl c : Sql.ci_eqb c c = true.
Proof.
  unfold Sql.ci_eqb. apply Ascii.eqb_refl.
Qed.

Lemma like_own_prefix kw :
  forall post, Sql.like (kw ++ "%") (kw ++ post) = true.
Proof.
  induction kw as [|k kw IH]; intro post.
  - apply like_percent_all.
  - change (String k kw ++ "%")%string with (String k (kw ++ "%")).
    change (String k kw ++ post)%string with (String k (kw ++ post)).
    destruct (Ascii.eqb k Sql.percent) eqn:P.
    + apply Ascii.eqb_eq in P. subst k.
      rewrite like_percent_step, like_percent_step, IH.
      apply orb_true_r.
    + simpl. rewrite P, ci_eqb_refl, orb_true_r, IH. reflexivity.
Qed.

Lemma like_own_text kw : Sql.like ("%" ++ kw ++ "%") kw = true.
Proof.
  change ("%" ++ kw ++ "%")%string with (String Sql.percent (kw ++ "%")).
  rewrite like_percent_step.
  assert (kw = (kw ++ EmptyString)%string) as E
    by (induction kw as [|c kw IH]; simpl; [|rewrite <- IH]; reflexivity).
  rewrite E at 2. rewrite like_own_prefix. reflexivity.
Qed.

(** X30. Searching for the full name of an active product, or for its
    barcode, finds the product, whatever characters the text contains. *)
Theorem search_finds_own_text :
  forall d p,
    In p (products d) -> active p = true ->
    In p (search_products d (name p))
    /\ (forall b, barcode p = Some b -> In p (search_products d b)).
Proof.
  intros d p Hp Ha. split.
  - unfold search_products.
    destruct (negb (name p =? EmptyString)%string); cbv zeta;
      apply filter_In; split; auto.
    cbv beta. rewrite like_own_text, Ha. reflexivity.
  - intros b Hb. unfold search_products.
    destruct (negb (b =? EmptyString)%string); cbv zeta;
      apply filter_In; split; auto.
    cbv beta. rewrite Hb. unfold Sql.like_null.
    rewrite like_own_text, Ha. apply andb_true_iff.
    split; [apply orb_true_r | reflexivity].
Qed.

Lemma search_finds_own_text_witness :
  In coca_cola (search_products init_db "Coca Cola 330ml")
  /\ In coca_cola (search_products init_db "6901234567890").
Proof.
  destruct (search_finds_own_text init_db coca_cola) as [H1 H2].
  - left. reflexivity.
  - reflexivity.
  - split; [exact H1 | apply H2; reflexivity].
Defined.
